(** * dbsake.distutils_ext: the [bdist_dbsakesh] bundler

    A shallow embedding of [src/dbsake/distutils_ext.py]: the prefix test
    [is_excluded], the generator [fetch_source], and [DBSakeBundler.run],
    which writes a shell header followed by a zip archive of the [dbsake]
    tree and of the pure-python dependencies.

    Python [bytes] are [list byte]; Python [str] is [string] (holding the
    text in UTF-8, so that [encode('utf-8')] lists its bytes). *)

From Stdlib Require Import List Bool Arith ZArith Lia.
From Stdlib Require Import Strings.String Strings.Ascii Strings.Byte.
Import ListNotations.

(** ** Python [bytes] *)

Module PyBytes.

Definition bytes := list byte.

(** A literal [b'...']. *)
Definition b (s : string) : bytes := list_byte_of_string s.

Definition LF : byte := x0a.
Definition CR : byte := x0d.
Definition SPACE : byte := x20.
Definition SQUOTE : byte := x27.
Definition DQUOTE : byte := x22.

(** [bytes.splitlines] breaks at ["\n"], ["\r"] and ["\r\n"] only. *)
Definition islinebreak (c : byte) : bool := Byte.eqb c LF || Byte.eqb c CR.

(** [bytes.rstrip()] strips the ASCII whitespace bytes. *)
Definition isspace (c : byte) : bool :=
  Byte.eqb c SPACE || Byte.eqb c x09 || Byte.eqb c LF || Byte.eqb c CR
  || Byte.eqb c x0b || Byte.eqb c x0c.

(** [s.startswith(prefix)] *)
Fixpoint startswith (s prefix : bytes) {struct prefix} : bool :=
  match prefix with
  | [] => true
  | p :: prefix' =>
      match s with
      | [] => false
      | c :: s' => Byte.eqb c p && startswith s' prefix'
      end
  end.

(** [s.splitlines(True)]: the lines of [s] with their line endings kept;
    no empty line is produced after a final line ending. *)
Fixpoint splitlines (s : bytes) : list bytes :=
  match s with
  | [] => []
  | c :: s' =>
      if Byte.eqb c LF then [c] :: splitlines s'
      else if Byte.eqb c CR then
        match s' with
        | d :: s'' =>
            if Byte.eqb d LF then [c; d] :: splitlines s''
            else [c] :: splitlines s'
        | [] => [[c]]
        end
      else
        match splitlines s' with
        | [] => [[c]]
        | l :: ls => (c :: l) :: ls
        end
  end.

(** [s.partition(sep)] for a non-empty [sep]: the part before the first
    occurrence of [sep], [sep] itself, and the part after it; when [sep]
    does not occur, [(s, b'', b'')]. *)
Fixpoint partition (s sep : bytes) : bytes * bytes * bytes :=
  match s with
  | [] => ([], [], [])
  | c :: s' =>
      if startswith s sep then ([], sep, skipn (List.length sep) s)
      else
        match partition s' sep with
        | (_, [], _) => (s, [], [])
        | (before, found, after) => (c :: before, found, after)
        end
  end.

(** [s.rstrip()] *)
Fixpoint rstrip (s : bytes) : bytes :=
  match s with
  | [] => []
  | c :: s' =>
      match rstrip s' with
      | [] => if isspace c then [] else [c]
      | t => c :: t
      end
  end.

(** [s[0:-1]] *)
Definition slice_0_m1 (s : bytes) : bytes := removelast s.

(** The scan of [s.replace(old, new)] for a non-empty [old]: left to
    right, every occurrence that does not overlap an earlier one is
    replaced.  [skip] counts the bytes of the occurrence just replaced
    that remain to be passed over. *)
Fixpoint replace_scan (old new : bytes) (skip : nat) (s : bytes) : bytes :=
  match s with
  | [] => []
  | c :: s' =>
      match skip with
      | S k => replace_scan old new k s'
      | O =>
          if startswith s old
          then new ++ replace_scan old new (List.length old - 1) s'
          else c :: replace_scan old new 0 s'
      end
  end.

(** [s.replace(old, new)]; with an empty [old], [new] is inserted before
    every byte and at the end. *)
Definition replace (s old new : bytes) : bytes :=
  match old with
  | [] => new ++ flat_map (fun c => c :: new) s
  | _ :: _ => replace_scan old new 0 s
  end.

End PyBytes.

(** ** Python [str] *)

Module PyStr.

Local Open Scope string_scope.

(** [s.encode('utf-8')] *)
Definition encode (s : string) : PyBytes.bytes := list_byte_of_string s.

(** [s.startswith(prefix)] *)
Definition startswith (s prefix : string) : bool := String.prefix prefix s.

Fixpoint rev_string (acc s : string) : string :=
  match s with
  | EmptyString => acc
  | String c s' => rev_string (String c acc) s'
  end.

(** [s.endswith(suffix)] *)
Definition endswith (s suffix : string) : bool :=
  String.prefix (rev_string "" suffix) (rev_string "" s).

(** [s.replace(old, new)] for one-character [old] and [new]. *)
Fixpoint replace_char (old new : ascii) (s : string) : string :=
  match s with
  | EmptyString => EmptyString
  | String c s' =>
      String (if Ascii.eqb c old then new else c) (replace_char old new s')
  end.

End PyStr.

(** ** [os.path] (posixpath) *)

Module OsPath.

Local Open Scope string_scope.

Definition sep : ascii := "/"%char.

(** [os.path.basename(p)]: what follows the last ['/'] of [p]. *)
Fixpoint basename (p : string) : string :=
  match p with
  | EmptyString => EmptyString
  | String c p' =>
      if Ascii.eqb c sep then basename p'
      else if existsb (Ascii.eqb sep) (list_ascii_of_string p')
           then basename p'
           else p
  end.

(** [os.path.join(a, p)] *)
Definition join (a p : string) : string :=
  if PyStr.startswith p "/" then p
  else if (a =? "") || PyStr.endswith a "/" then a ++ p
  else a ++ "/" ++ p.

End OsPath.

(** ** Exceptions, results and generators *)

(** The exceptions the module can let escape.  [version[0]] on an empty
    list raises [IndexError]; a failed [assert] raises [AssertionError]. *)
Inductive exn : Type :=
| OSError (errno : Z)
| ImportError
| AttributeError
| AssertionError
| IndexError
| TypeError.

Inductive result (A : Type) : Type :=
| Ok (a : A)
| Raise (e : exn).

Arguments Ok {A} a.
Arguments Raise {A} e.

Definition EEXIST : Z := 17.

(** A generator run to its end: the items it yields, in order, and the
    exception that ends it, if one does. *)
Record generated (A : Type) : Type := Generated {
  yielded : list A;
  finish : option exn
}.

Arguments Generated {A} yielded finish.
Arguments yielded {A} g.
Arguments finish {A} g.

Definition gen_stop {A : Type} : generated A := Generated [] None.
Definition gen_raise {A : Type} (e : exn) : generated A := Generated [] (Some e).
Definition gen_yield {A : Type} (x : A) (g : generated A) : generated A :=
  Generated (x :: yielded g) (finish g).

(** ** The import system seen by [fetch_source] *)

Record Loader : Type := { get_source : string -> option string }.
Record Importer : Type := { find_module : string -> option Loader }.
Record Package : Type := { __name__ : string; __path__ : list string }.

Record Interp : Type := {
  (** [__import__(name)] *)
  import_ : string -> result Package;
  (** [pkgutil.get_loader(pkg)] *)
  get_loader : Package -> option Loader;
  (** [pkgutil.walk_packages(path, prefix)] as [(importer, name, is_pkg)] *)
  walk_packages : list string -> string -> list (Importer * string * bool)
}.

Local Open Scope string_scope.
Local Open Scope list_scope.

(** [is_excluded(name, excludes)] *)
Fixpoint is_excluded (name : string) (excludes : list string) : bool :=
  match excludes with
  | [] => false
  | prefix :: excludes' =>
      if PyStr.startswith name prefix then true
      else is_excluded name excludes'
  end.

(** The archive path of a walked module. *)
Definition module_path (name : string) (is_pkg : bool) : string :=
  let path := PyStr.replace_char "."%char "/"%char name in
  if is_pkg then (path ++ "/__init__.py")%string else (path ++ ".py")%string.

(** The [for] loop of [fetch_source] over the walked modules. *)
Fixpoint fetch_walked (excludes : list string)
    (walked : list (Importer * string * bool))
  : generated (string * option string) :=
  match walked with
  | [] => gen_stop
  | (importer, name, is_pkg) :: walked' =>
      if is_excluded name excludes then fetch_walked excludes walked'
      else
        match find_module importer name with
        | None => gen_raise AttributeError
        | Some loader =>
            match get_source loader name with
            | None => gen_raise AssertionError
            | Some source =>
                gen_yield (module_path name is_pkg, Some source)
                          (fetch_walked excludes walked')
            end
        end
  end.

(** [fetch_source(package, excludes)] *)
Definition fetch_source (py : Interp) (package : string)
    (excludes : list string) : generated (string * option string) :=
  match import_ py package with
  | Raise e => gen_raise e
  | Ok pkg =>
      match get_loader py pkg with
      | None => gen_raise AttributeError
      | Some loader =>
          gen_yield
            ((__name__ pkg ++ "/__init__.py")%string,
             get_source loader (__name__ pkg))
            (fetch_walked excludes
               (walk_packages py (__path__ pkg) (__name__ pkg ++ ".")%string))
      end
  end.

(** ** The version stamp (lines 157 and 160-166 of [run]) *)

Import PyBytes.

Definition is_version_line (x : bytes) : bool :=
  startswith x (b "__version__ = ").

(** [(" %s'" % self.tag).encode('utf-8')], for a tag that is text held
    in UTF-8; a tag Python cannot encode is not a [string] here. *)
Definition tag_bytes (tag : string) : bytes :=
  PyStr.encode (" " ++ tag ++ "'")%string.

(** [version[0].partition(b' = ')[2].rstrip()] *)
Definition version_info_of (line : bytes) : bytes :=
  rstrip (snd (partition line (b " = "))).

Definition stamp (data : bytes) (tag : string) : result bytes :=
  let tag := tag_bytes tag in
  let version := filter is_version_line (splitlines data) in
  match version with
  | [] => Raise IndexError
  | version_0 :: _ =>
      let version_info := version_info_of version_0 in
      let new_version := slice_0_m1 version_info ++ tag in
      Ok (replace data version_info new_version)
  end.

(** ** The shell header *)

Definition dq : string := String (ascii_of_byte DQUOTE) EmptyString.
Definition quoted (s : string) : string := (dq ++ s ++ dq)%string.
Definition text (lines : list string) : string :=
  String.concat "" (map (fun l => (l ++ String (ascii_of_byte LF) "")%string) lines).

Definition SHELL_SCRIPT : string := text
  [ "#!/bin/sh";
    ("if [ " ++ quoted "${LANG:-C}" ++ " = " ++ quoted "C" ++ " ]; then")%string;
    ("    export LANG=" ++ quoted "en_US.utf8")%string;
    "fi";
    "";
    "python=$({ which python2.7 ||";
    "           which python2.6 ||";
    "           which python3; } 2>/dev/null)";
    "";
    "if [ $? -ne 0 ]; then";
    ("    echo " ++ quoted "No supported python command found." ++ " >&2")%string;
    "    python=$(which python 2>/dev/null)";
    "    if [ $? -eq 0 ]; then";
    ("        echo " ++ quoted "However, found $(${python} -V 2>&1)" ++ " >&2")%string;
    "    fi";
    ("    echo " ++ quoted "dbsake requires python2.6+, or python3+." ++ " >&2")%string;
    ("    echo " ++ quoted "Aborting." ++ " >&2")%string;
    "    exit 1";
    "fi";
    "exec ${python} $0 $@ || exit 5" ].

(** ** The world [run] acts on *)

(** The operating system, as [run] calls it. *)
Record OS : Type := {
  (** [os.makedirs(path)] *)
  makedirs : string -> result unit;
  (** [open(path, 'wb')] *)
  open_wb : string -> result unit;
  (** [os.walk(top)] as [(dirpath, dirnames, filenames)] *)
  walk : string -> list (string * list string * list string);
  (** [os.path.abspath(path)] *)
  abspath : string -> string;
  (** the bytes of a file, as [open(path, 'rb').read()] and
      [archive.write(path, ...)] read them *)
  read_rb : string -> result bytes
}.

(** What a run has produced so far. *)
Record Output : Type := {
  (** the output file, once opened (and truncated) *)
  out_name : option string;
  out_mode : option Z;
  (** the bytes written to the file before the archive *)
  out_header : bytes;
  (** the entries written to the archive, oldest first *)
  archive : list (string * bytes);
  archive_closed : bool;
  out_closed : bool;
  stderr : list string
}.

Definition no_output : Output :=
  {| out_name := None; out_mode := None; out_header := [];
     archive := []; archive_closed := false; out_closed := false;
     stderr := [] |}.

Definition set_opened (name : string) (o : Output) : Output :=
  {| out_name := Some name; out_mode := out_mode o; out_header := [];
     archive := archive o; archive_closed := archive_closed o;
     out_closed := out_closed o; stderr := stderr o |}.

Definition set_mode (mode : Z) (o : Output) : Output :=
  {| out_name := out_name o; out_mode := Some mode;
     out_header := out_header o; archive := archive o;
     archive_closed := archive_closed o; out_closed := out_closed o;
     stderr := stderr o |}.

Definition add_header (data : bytes) (o : Output) : Output :=
  {| out_name := out_name o; out_mode := out_mode o;
     out_header := out_header o ++ data; archive := archive o;
     archive_closed := archive_closed o; out_closed := out_closed o;
     stderr := stderr o |}.

Definition add_entry (arcname : string) (data : bytes) (o : Output) : Output :=
  {| out_name := out_name o; out_mode := out_mode o;
     out_header := out_header o; archive := archive o ++ [(arcname, data)];
     archive_closed := archive_closed o; out_closed := out_closed o;
     stderr := stderr o |}.

Definition close_archive (o : Output) : Output :=
  {| out_name := out_name o; out_mode := out_mode o;
     out_header := out_header o; archive := archive o;
     archive_closed := true; out_closed := out_closed o;
     stderr := stderr o |}.

Definition close_file (o : Output) : Output :=
  {| out_name := out_name o; out_mode := out_mode o;
     out_header := out_header o; archive := archive o;
     archive_closed := archive_closed o; out_closed := true;
     stderr := stderr o |}.

Definition add_stderr (line : string) (o : Output) : Output :=
  {| out_name := out_name o; out_mode := out_mode o;
     out_header := out_header o; archive := archive o;
     archive_closed := archive_closed o; out_closed := out_closed o;
     stderr := stderr o ++ [line] |}.

(** ** Statements: an exception leaves the output as it was when raised *)

Definition M (A : Type) : Type := Output -> result A * Output.

Definition ret {A : Type} (a : A) : M A := fun o => (Ok a, o).
Definition raise {A : Type} (e : exn) : M A := fun o => (Raise e, o).
Definition lift {A : Type} (r : result A) : M A := fun o => (r, o).
Definition modify (f : Output -> Output) : M unit := fun o => (Ok tt, f o).

Definition bind {A B : Type} (m : M A) (k : A -> M B) : M B :=
  fun o =>
    match m o with
    | (Ok a, o') => k a o'
    | (Raise e, o') => (Raise e, o')
    end.

Declare Scope stmt_scope.
Delimit Scope stmt_scope with stmt.
Notation "x <- m ;; k" := (bind m (fun x => k))
  (at level 61, m at next level, right associativity) : stmt_scope.
Notation "m ;; k" := (bind m (fun _ => k))
  (at level 61, right associativity) : stmt_scope.

Local Open Scope stmt_scope.

(** A [with] block: [on_exit] runs however the body ends. *)
Definition with_ {A : Type} (body : M A) (on_exit : Output -> Output) : M A :=
  fun o => let (r, o') := body o in (r, on_exit o').

(** [for x in l: body(x)] *)
Fixpoint for_each {A : Type} (l : list A) (body : A -> M unit) : M unit :=
  match l with
  | [] => ret tt
  | x :: l' => body x ;; for_each l' body
  end.

(** [for x in g: body(x)] over a generator: the exception that ends the
    generator surfaces after the items yielded before it were consumed. *)
Definition for_generated {A : Type} (g : generated A) (body : A -> M unit)
  : M unit :=
  for_each (yielded g) body ;;
  match finish g with
  | None => ret tt
  | Some e => raise e
  end.

(** ** [ZipFile] *)

Module ZipFile.

(** [archive.write(filename, arcname)] *)
Definition write (os : OS) (filename arcname : string) : M unit :=
  data <- lift (read_rb os filename) ;;
  modify (add_entry arcname data).

(** [archive.writestr(arcname, data)] with [bytes] *)
Definition writestr (arcname : string) (data : bytes) : M unit :=
  modify (add_entry arcname data).

(** [archive.writestr(arcname, source)] with what [get_source] returned:
    text is stored in UTF-8, [None] has no length. *)
Definition writestr_source (arcname : string) (source : option string)
  : M unit :=
  match source with
  | Some s => writestr arcname (PyStr.encode s)
  | None => raise TypeError
  end.

End ZipFile.

(** ** [DBSakeBundler] *)

Module DBSakeBundler.

Record options : Type := { dist_dir : option string; tag : string }.

Definition initialize_options : options :=
  {| dist_dir := None; tag := "" |}.

Definition finalize_options (self : options) : options :=
  match dist_dir self with
  | None => {| dist_dir := Some "dist"; tag := tag self |}
  | Some _ => self
  end.

Definition dependencies : list (string * list string) :=
  [ ("click", ["click.testing"]);
    ("jinja2", ["jinja2.testsuite"]);
    ("markupsafe", ["markupsafe._speedups"; "markupsafe.tests"]) ].

(** [stat.S_IXUSR | stat.S_IRUSR | stat.S_IWUSR] *)
Definition mode_rwx_user : Z := Z.lor (Z.lor 64 256) 128.

Section Run.

Variable os : OS.
Variable py : Interp.
(** [__file__] of [distutils_ext] *)
Variable __file__ : string.
(** The dependency table; [run] reads [self.dependencies]. *)
Variable deps : list (string * list string).

(** The test of lines 145-147: the file is passed over. *)
Definition not_wanted (dirpath name : string) : bool :=
  negb (PyStr.endswith name ".py")
  && negb (OsPath.basename dirpath =? "templates")%string.

(** The test of line 150. *)
Definition is_self (path : string) : bool :=
  (abspath os path =? __file__)%string.

(** Lines 152-155. *)
Definition arcname_of (path name : string) : string :=
  if negb (name =? "__main__.py")%string then path else name.

(** The body of the loop over [filenames] (lines 145-169). *)
Definition add_file (self_tag : string) (dirpath name : string) : M unit :=
  if not_wanted dirpath name then ret tt
  else
    let path := OsPath.join dirpath name in
    if is_self path then ret tt
    else
      let arcname := arcname_of path name in
      if PyStr.endswith path "dbsake/__init__.py" then
        data <- lift (read_rb os path) ;;
        data <- lift (stamp data self_tag) ;;
        ZipFile.writestr arcname data
      else ZipFile.write os path arcname.

(** Lines 143-169. *)
Definition write_tree (self_tag : string) : M unit :=
  for_each (walk os "dbsake")
    (fun '(dirpath, _, filenames) =>
       for_each filenames (add_file self_tag dirpath)).

(** Lines 171-173. *)
Definition write_dependencies : M unit :=
  for_each deps
    (fun '(depname, excludes) =>
       for_generated (fetch_source py depname excludes)
         (fun '(name, source) => ZipFile.writestr_source name source)).

(** Lines 130-134. *)
Definition make_dist_dir (dir : string) : M unit :=
  match makedirs os dir with
  | Ok _ => ret tt
  | Raise (OSError errno) =>
      if (errno =? EEXIST)%Z then ret tt else raise (OSError errno)
  | Raise e => raise e
  end.

(** [run(self)], after [finalize_options] has set [dist_dir]. *)
Definition run (dist_dir : string) (self_tag : string) : M unit :=
  make_dist_dir dist_dir ;;
  let name := OsPath.join dist_dir "dbsake.sh" in
  lift (open_wb os name) ;;
  modify (set_opened name) ;;
  with_
    (modify (set_mode mode_rwx_user) ;;
     modify (add_header (PyStr.encode SHELL_SCRIPT)) ;;
     with_ (write_tree self_tag ;; write_dependencies) close_archive)
    close_file ;;
  modify (add_stderr ("Generated " ++ name)%string).

End Run.

End DBSakeBundler.

(** ** Predicates on buffers *)

Section Buffers.

Import PyBytes.

(** A buffer ends at a line boundary when it is empty or its last byte is
    a line break. *)
Definition ends_line (s : bytes) : bool :=
  match rev s with
  | [] => true
  | c :: _ => islinebreak c
  end.

(** [s] is empty or begins with a line break. *)
Definition at_line_end (s : bytes) : bool :=
  match s with
  | [] => true
  | c :: _ => islinebreak c
  end.

Definition no_linebreak (s : bytes) : bool :=
  forallb (fun c => negb (islinebreak c)) s.

(** Some line of [data] begins with [__version__ = ]. *)
Definition has_version_line (data : bytes) : bool :=
  existsb is_version_line (splitlines data).

(** [sub in s] *)
Fixpoint contains (s sub : bytes) {struct s} : bool :=
  startswith s sub
  || match s with
     | [] => false
     | _ :: s' => contains s' sub
     end.

(** Some occurrence of [old] in [pre ++ rest] begins inside [pre]. *)
Fixpoint starts_within (pre rest old : bytes) {struct pre} : bool :=
  match pre with
  | [] => false
  | _ :: pre' => startswith (pre ++ rest) old || starts_within pre' rest old
  end.

End Buffers.

(** ** What the run is expected to write *)

Section Expected.

Variable os : OS.
Variable py : Interp.
Variable __file__ : string.
Variable deps : list (string * list string).

(** The files of the walk, directory by directory, as [(dirpath, name)]. *)
Definition walked_files : list (string * string) :=
  flat_map (fun '(dirpath, _, filenames) => map (pair dirpath) filenames)
           (walk os "dbsake").

(** The inclusion rule: a source file or a file of a [templates]
    directory, but not the bundler's own file. *)
Definition included (file : string * string) : bool :=
  let '(dirpath, name) := file in
  (PyStr.endswith name ".py" || (OsPath.basename dirpath =? "templates")%string)
  && negb (abspath os (OsPath.join dirpath name) =? __file__)%string.

Definition file_path (file : string * string) : string :=
  OsPath.join (fst file) (snd file).

Definition file_arcname (file : string * string) : string :=
  DBSakeBundler.arcname_of (file_path file) (snd file).

Definition is_main (file : string * string) : bool :=
  (snd file =? "__main__.py")%string.

(** The archive paths of the tree, in walk order. *)
Definition tree_names : list string :=
  map file_arcname (filter included walked_files).

(** The archive paths the dependencies yield, in order. *)
Definition dependency_names : list string :=
  flat_map (fun '(depname, excludes) =>
              map fst (yielded (fetch_source py depname excludes)))
           deps.

End Expected.

(** The archive paths written so far, oldest first. *)
Definition archive_names (o : Output) : list string := map fst (archive o).

(** The output once the header is written, before the first entry. *)
Definition header_output (name : string) : Output :=
  add_header (PyStr.encode SHELL_SCRIPT)
    (set_mode DBSakeBundler.mode_rwx_user (set_opened name no_output)).

(** [os] with another [os.makedirs]. *)
Definition with_makedirs (f : string -> result unit) (os : OS) : OS :=
  {| makedirs := f; open_wb := open_wb os; walk := walk os;
     abspath := abspath os; read_rb := read_rb os |}.

(** The source [find_module] and [get_source] give for a walked module. *)
Definition walked_source (m : Importer * string * bool) : option string :=
  let '(importer, name, _) := m in
  match find_module importer name with
  | Some loader => get_source loader name
  | None => None
  end.

Definition walked_name (m : Importer * string * bool) : string :=
  snd (fst m).

(** The entry of a walked module. *)
Definition walked_entry (m : Importer * string * bool) : string * option string :=
  (module_path (walked_name m) (snd m), walked_source m).

Definition not_excluded (excludes : list string) (m : Importer * string * bool)
  : bool :=
  negb (is_excluded (walked_name m) excludes).

(** ** Fixtures *)

Module Fixture.

Fixpoint lookup (path : string) (files : list (string * bytes))
  : result bytes :=
  match files with
  | [] => Raise (OSError 2)
  | (p, data) :: files' =>
      if (p =? path)%string then Ok data else lookup path files'
  end.

(** A machine whose [dbsake] directory walks as [tree] and holds [files];
    the sources live under [/src]. *)
Definition machine (mkdir : result unit)
    (tree : list (string * list string * list string))
    (files : list (string * bytes)) : OS :=
  {| makedirs := fun _ => mkdir;
     open_wb := fun _ => Ok tt;
     walk := fun top => if (top =? "dbsake")%string then tree else [];
     abspath := fun p => ("/src/" ++ p)%string;
     read_rb := fun p => lookup p files |}.

Definition self_file : string := "/src/dbsake/distutils_ext.py".

Definition init_py : bytes :=
  b "# dbsake" ++ [LF] ++ b "__version__ = '1.2.3'" ++ [LF].

Definition files : list (string * bytes) :=
  [ ("dbsake/__init__.py", init_py);
    ("dbsake/__main__.py", b "import dbsake");
    ("dbsake/cli.py", b "pass");
    ("dbsake/distutils_ext.py", b "class DBSakeBundler");
    ("dbsake/README", b "readme");
    ("dbsake/templates/my.cnf", b "[mysqld]");
    ("dbsake/sub/__init__.py", b "");
    ("dbsake/sub/__main__.py", b "import sub") ].

Definition tree : list (string * list string * list string) :=
  [ ("dbsake", ["templates"],
     ["__init__.py"; "__main__.py"; "cli.py"; "distutils_ext.py"; "README"]);
    ("dbsake/templates", [], ["my.cnf"]) ].

(** A tree with two entry points. *)
Definition tree_two_mains : list (string * list string * list string) :=
  [ ("dbsake", ["sub"], ["__init__.py"; "__main__.py"]);
    ("dbsake/sub", [], ["__init__.py"; "__main__.py"]) ].

(** A tree whose init file comes second and has no version line. *)
Definition tree_init_second : list (string * list string * list string) :=
  [ ("dbsake", [], ["cli.py"; "__init__.py"]) ].

Definition files_no_version : list (string * bytes) :=
  [ ("dbsake/__init__.py", b "# dbsake" ++ [LF]);
    ("dbsake/cli.py", b "pass") ].

Definition text_loader : Loader :=
  {| get_source := fun name => Some ("# " ++ name)%string |}.

Definition binary_loader : Loader :=
  {| get_source := fun _ => None |}.

Definition text_importer : Importer :=
  {| find_module := fun _ => Some text_loader |}.

Definition binary_importer : Importer :=
  {| find_module := fun _ => Some binary_loader |}.

(** An interpreter where every top-level package has the submodules
    [submodules prefix]. *)
Definition interpreter
    (submodules : string -> list (Importer * string * bool)) : Interp :=
  {| import_ := fun name => Ok {| __name__ := name; __path__ := [name] |};
     get_loader := fun _ => Some text_loader;
     walk_packages := fun _ prefix => submodules prefix |}.

Definition plain_modules (prefix : string) : list (Importer * string * bool) :=
  [ (text_importer, (prefix ++ "b")%string, false);
    (text_importer, (prefix ++ "c")%string, false) ].

Definition mixed_modules (prefix : string) : list (Importer * string * bool) :=
  [ (text_importer, (prefix ++ "core")%string, false);
    (text_importer, (prefix ++ "testing")%string, false);
    (text_importer, (prefix ++ "utils")%string, true);
    (text_importer, (prefix ++ "utils.html")%string, false);
    (text_importer, (prefix ++ "tests")%string, true) ].

Definition compiled_modules (prefix : string) : list (Importer * string * bool) :=
  [ (text_importer, (prefix ++ "core")%string, false);
    (binary_importer, (prefix ++ "_native")%string, false);
    (text_importer, (prefix ++ "utils")%string, false) ].

End Fixture.

(** ** Vocabulary for the further properties *)

(** What a statement may not touch: everything but the archive entries. *)
Definition file_state (o : Output)
  : option string * option Z * bytes * bool * bool * list string :=
  (out_name o, out_mode o, out_header o, archive_closed o, out_closed o,
   stderr o).

(** The stamp is applied to this file. *)
Definition is_stamped (file : string * string) : bool :=
  PyStr.endswith (file_path file) "dbsake/__init__.py".

(** The entry expected for an included file with the bytes [contents]:
    the stamped bytes for a stamped file, the bytes as they are otherwise. *)
Definition tree_entry (contents : string -> bytes) (self_tag : string)
    (file : string * string) : string * bytes :=
  (file_arcname file,
   if is_stamped file
   then match stamp (contents (file_path file)) self_tag with
        | Ok data => data
        | Raise _ => contents (file_path file)
        end
   else contents (file_path file)).

(** The entries expected for what a generator yielded. *)
Definition source_entries (items : list (string * option string))
  : list (string * bytes) :=
  flat_map (fun '(name, source) =>
              match source with
              | Some text => [(name, PyStr.encode text)]
              | None => []
              end)
           items.

Definition has_slash (s : string) : bool :=
  existsb (Ascii.eqb "/"%char) (list_ascii_of_string s).

(** ** Further scenarios *)

Module Scenario.

(** An interpreter without the packages. *)
Definition nothing_installed : Interp :=
  {| import_ := fun _ => Raise ImportError;
     get_loader := fun _ => None;
     walk_packages := fun _ _ => [] |}.

(** An interpreter whose packages are themselves compiled: their loader
    has no source. *)
Definition compiled_packages : Interp :=
  {| import_ := fun name => Ok {| __name__ := name; __path__ := [name] |};
     get_loader := fun _ => Some Fixture.binary_loader;
     walk_packages := fun _ prefix => Fixture.plain_modules prefix |}.

(** A tree with a second package named [dbsake] below the first. *)
Definition tree_nested : list (string * list string * list string) :=
  [ ("dbsake", ["vendor"], ["__init__.py"]);
    ("dbsake/vendor", ["dbsake"], []);
    ("dbsake/vendor/dbsake", [], ["__init__.py"]) ].

Definition files_nested : list (string * bytes) :=
  [ ("dbsake/__init__.py", Fixture.init_py);
    ("dbsake/vendor/dbsake/__init__.py", b "# vendored" ++ [LF]) ].

(** A tree that lists a file which is gone when it is read. *)
Definition tree_vanished : list (string * list string * list string) :=
  [ ("dbsake", [], ["cli.py"; "gone.py"; "util.py"]) ].

Definition files_vanished : list (string * bytes) :=
  [ ("dbsake/cli.py", b "pass"); ("dbsake/util.py", b "pass") ].

(** A machine on which the output file cannot be opened. *)
Definition read_only (tree : list (string * list string * list string))
    (files : list (string * bytes)) : OS :=
  {| makedirs := fun _ => Raise (OSError EEXIST);
     open_wb := fun _ => Raise (OSError 30);
     walk := fun top => if (top =? "dbsake")%string then tree else [];
     abspath := fun p => ("/src/" ++ p)%string;
     read_rb := fun p => Fixture.lookup p files |}.

End Scenario.

(** ** What the walks guarantee *)

Definition has_dot (s : string) : bool :=
  existsb (Ascii.eqb "."%char) (list_ascii_of_string s).

(** The first component of a path: what precedes its first slash. *)
Fixpoint top_component (s : string) : string :=
  match s with
  | EmptyString => EmptyString
  | String c s' =>
      if Ascii.eqb c "/"%char then EmptyString
      else String c (top_component s')
  end.

(** A name of the dependency table is a top-level module name, and not
    that of the tree. *)
Definition top_level_name (d : string) : bool :=
  negb (has_dot d) && negb (has_slash d) && negb (d =? "dbsake")%string.

(** What [pkgutil.walk_packages] lists under the prefix [d.]: a module
    name under that prefix, without slash, and never [__init__], which
    stands for the package itself. *)
Definition walked_under (d : string) (m : Importer * string * bool) : bool :=
  String.prefix (d ++ ".") (walked_name m)
  && negb (has_slash (walked_name m))
  && negb (PyStr.endswith (walked_name m) ".__init__").

(** What the import system guarantees for the top-level package [d]:
    [__import__] returns the package of that name, and the walk lists
    each of its modules once. *)
Definition well_walked (py : Interp) (d : string) : Prop :=
  forall pkg,
    import_ py d = Ok pkg ->
    __name__ pkg = d
    /\ NoDup (map walked_name
                (walk_packages py (__path__ pkg) (d ++ ".")%string))
    /\ forallb (walked_under d)
               (walk_packages py (__path__ pkg) (d ++ ".")%string) = true.

(** The archive path of a module given as name and kind. *)
Definition path_of_module (x : string * bool) : string :=
  module_path (fst x) (snd x).
(** * Properties *)

(** ** Bytes *)

Section BytesFacts.

Import PyBytes.

Lemma byte_eqb_refl (c : byte) : Byte.eqb c c = true.
Proof. now apply Byte.byte_dec_lb. Qed.

Lemma byte_eqb_eq (c d : byte) : Byte.eqb c d = true <-> c = d.
Proof. split; [apply Byte.byte_dec_bl | apply Byte.byte_dec_lb]. Qed.

Lemma byte_eqb_neq (c d : byte) : Byte.eqb c d = false <-> c <> d.
Proof.
  split; [apply Byte.eqb_false |].
  intros Hne. destruct (Byte.eqb c d) eqn:E; [| reflexivity].
  now apply byte_eqb_eq in E.
Qed.

Lemma startswith_app (p r : bytes) : startswith (p ++ r) p = true.
Proof.
  induction p as [| c p IH]; simpl; [reflexivity |].
  now rewrite byte_eqb_refl.
Qed.

Lemma startswith_inv (s p : bytes) :
  startswith s p = true -> exists r, s = p ++ r.
Proof.
  revert s. induction p as [| c p IH]; intros s H; simpl in *.
  - now exists s.
  - destruct s as [| d s]; [discriminate |].
    apply andb_true_iff in H as [Hc Hs].
    apply byte_eqb_eq in Hc as ->.
    destruct (IH _ Hs) as [r ->]. now exists r.
Qed.

(** *** [splitlines] *)

Lemma splitlines_concat (s : bytes) : List.concat (splitlines s) = s.
Proof.
  remember (List.length s) as n eqn:Hn.
  revert s Hn. induction n as [n IH] using lt_wf_ind. intros s Hn.
  assert (IH' : forall t, List.length t < n -> List.concat (splitlines t) = t).
  { intros t Ht. now apply (IH (List.length t)). }
  clear IH. subst n.
  destruct s as [| c s]; [reflexivity |].
  cbn [splitlines].
  destruct (Byte.eqb c LF).
  - cbn [List.concat app]. f_equal. apply IH'. simpl. lia.
  - destruct (Byte.eqb c CR).
    + destruct s as [| d s]; [reflexivity |].
      destruct (Byte.eqb d LF); cbn [List.concat app].
      * do 2 f_equal. apply IH'. simpl. lia.
      * f_equal. apply IH'. simpl. lia.
    + pose proof (IH' s ltac:(simpl; lia)) as Hs.
      destruct (splitlines s) as [| l ls]; simpl in *; now subst.
Qed.

Lemma splitlines_In (s line : bytes) :
  In line (splitlines s) -> exists a c, s = a ++ line ++ c.
Proof.
  intros H. apply in_split in H as (l1 & l2 & E).
  exists (List.concat l1), (List.concat l2).
  rewrite <- (splitlines_concat s), E, concat_app. reflexivity.
Qed.

Lemma ends_line_cons (c : byte) (s : bytes) :
  s <> [] -> ends_line (c :: s) = ends_line s.
Proof.
  intros Hs. unfold ends_line. simpl.
  destruct (rev s) as [| d r] eqn:E.
  - apply (f_equal (@rev byte)) in E. rewrite rev_involutive in E. now subst.
  - reflexivity.
Qed.

Lemma splitlines_nonempty (s : bytes) : s <> [] -> splitlines s <> [].
Proof.
  intros Hs E. pose proof (splitlines_concat s) as H.
  rewrite E in H. simpl in H. now subst.
Qed.

Lemma splitlines_app (pre rest : bytes) :
  ends_line pre = true ->
  startswith rest [LF] = false ->
  splitlines (pre ++ rest) = splitlines pre ++ splitlines rest.
Proof.
  intros Hpre Hrest.
  remember (List.length pre) as n eqn:Hn.
  revert pre Hn Hpre. induction n as [n IH] using lt_wf_ind. intros pre Hn Hpre.
  assert (IH' : forall t, List.length t < n -> ends_line t = true ->
                  splitlines (t ++ rest) = splitlines t ++ splitlines rest).
  { intros t Ht. now apply (IH (List.length t)). }
  clear IH. subst n.
  destruct pre as [| c pre]; [reflexivity |].
  cbn [app splitlines].
  destruct (Byte.eqb c LF) eqn:Ec.
  - cbn [app]. f_equal. apply IH'; [simpl; lia |].
    destruct pre; [reflexivity |].
    now rewrite ends_line_cons in Hpre by discriminate.
  - destruct (Byte.eqb c CR) eqn:Er.
    + destruct pre as [| d pre].
      * cbn [app]. destruct rest as [| r rest]; [reflexivity |].
        simpl in Hrest. rewrite andb_true_r in Hrest. now rewrite Hrest.
      * cbn [app]. destruct (Byte.eqb d LF) eqn:Ed; cbn [app]; f_equal.
        -- apply IH'; [simpl; lia |].
           destruct pre; [reflexivity |].
           now rewrite !ends_line_cons in Hpre by discriminate.
        -- apply (IH' (d :: pre)); [simpl; lia |].
           now rewrite ends_line_cons in Hpre by discriminate.
    + destruct pre as [| d pre].
      * exfalso. unfold ends_line, islinebreak in Hpre. simpl in Hpre.
        rewrite Ec, Er in Hpre. discriminate.
      * rewrite (IH' (d :: pre)); [| simpl; lia |].
        -- pose proof (@splitlines_nonempty (d :: pre) ltac:(discriminate)).
           destruct (splitlines (d :: pre)); [contradiction | reflexivity].
        -- now rewrite ends_line_cons in Hpre by discriminate.
Qed.

(** The first line of a buffer that begins with [body], free of line
    breaks, and then reaches a line end. *)
Lemma splitlines_first (body post : bytes) :
  body <> [] ->
  no_linebreak body = true ->
  at_line_end post = true ->
  exists eol more,
    splitlines (body ++ post) = (body ++ eol) :: more
    /\ forallb isspace eol = true.
Proof.
  intros Hne Hnl Hpost.
  induction body as [| c body IH]; [contradiction |].
  simpl in Hnl. apply andb_true_iff in Hnl as [Hc Hnl].
  unfold islinebreak in Hc. apply negb_true_iff, orb_false_iff in Hc as [Hc1 Hc2].
  cbn [app splitlines]. rewrite Hc1, Hc2.
  destruct body as [| d body].
  - cbn [app]. clear IH.
    destruct post as [| p post]; [exists [], []; split; reflexivity |].
    cbn [splitlines]. simpl in Hpost. unfold islinebreak in Hpost.
    destruct (Byte.eqb p LF) eqn:E1.
    + apply byte_eqb_eq in E1 as ->. eexists [LF], _. split; reflexivity.
    + simpl in Hpost. rewrite Hpost. apply byte_eqb_eq in Hpost as ->.
      destruct post as [| q post]; [eexists [CR], _; split; reflexivity |].
      destruct (Byte.eqb q LF) eqn:E2.
      * apply byte_eqb_eq in E2 as ->. eexists [CR; LF], _. split; reflexivity.
      * eexists [CR], _. split; reflexivity.
  - destruct (IH ltac:(discriminate) Hnl) as (eol & more & E & Hsp).
    rewrite E. exists eol, more. split; [reflexivity | assumption].
Qed.

(** *** [partition] and [rstrip] on a version line *)

Lemma version_line_partition (x : bytes) :
  partition (b "__version__ = " ++ x) (b " = ") = (b "__version__", b " = ", x).
Proof. reflexivity. Qed.

Lemma is_version_line_marker (x : bytes) :
  is_version_line (b "__version__ = " ++ x) = true.
Proof. apply startswith_app. Qed.

Lemma rstrip_spaces (ws : bytes) : forallb isspace ws = true -> rstrip ws = [].
Proof.
  induction ws as [| c ws IH]; simpl; [reflexivity |].
  intros H. apply andb_true_iff in H as [Hc Hws].
  now rewrite (IH Hws), Hc.
Qed.

Lemma rstrip_value (v : bytes) (q : byte) (ws : bytes) :
  isspace q = false ->
  forallb isspace ws = true ->
  rstrip (v ++ q :: ws) = v ++ [q].
Proof.
  intros Hq Hws. induction v as [| c v IH]; simpl.
  - now rewrite (rstrip_spaces _ Hws), Hq.
  - rewrite IH. destruct v; reflexivity.
Qed.

Lemma rstrip_prefix (s : bytes) : exists ws, s = rstrip s ++ ws.
Proof.
  induction s as [| c s [ws IH]]; simpl; [now exists [] |].
  destruct (rstrip s) as [| d t] eqn:E.
  - destruct (isspace c).
    + now exists (c :: s).
    + exists s. reflexivity.
  - exists ws. simpl. now rewrite IH at 1.
Qed.

Lemma partition_concat (s sep : bytes) :
  let '(before, found, after) := partition s sep in
  s = before ++ found ++ after.
Proof.
  induction s as [| c s IH]; simpl; [reflexivity |].
  destruct sep as [| p sep].
  - reflexivity.
  - cbn [startswith].
    destruct (Byte.eqb c p && startswith s sep) eqn:E.
    + apply andb_true_iff in E as [Ec Es].
      apply byte_eqb_eq in Ec as ->.
      apply startswith_inv in Es as [r ->].
      cbn [List.length skipn app]. f_equal.
      now rewrite skipn_app, skipn_all, Nat.sub_diag.
    + destruct (partition s (p :: sep)) as [[before found] after].
      destruct found; [now rewrite app_nil_r |]. cbn [app]. now f_equal.
Qed.

(** *** The tag *)

Lemma list_byte_of_string_app (s t : string) :
  list_byte_of_string (s ++ t)%string
  = list_byte_of_string s ++ list_byte_of_string t.
Proof.
  unfold list_byte_of_string.
  induction s as [| c s IH]; simpl; [reflexivity |]. now rewrite IH.
Qed.

Lemma tag_bytes_eq (tag : string) :
  tag_bytes tag = [SPACE] ++ PyStr.encode tag ++ [SQUOTE].
Proof.
  unfold tag_bytes, PyStr.encode. now rewrite !list_byte_of_string_app.
Qed.

Lemma removelast_snoc (v : bytes) (q : byte) : slice_0_m1 (v ++ [q]) = v.
Proof. apply removelast_last. Qed.

(** *** The stamp of a buffer whose first version line is visible *)

Lemma stamp_shape (pre v post : bytes) (q : byte) (tag : string) :
  ends_line pre = true ->
  filter is_version_line (splitlines pre) = [] ->
  no_linebreak (v ++ [q]) = true ->
  isspace q = false ->
  at_line_end post = true ->
  stamp (pre ++ b "__version__ = " ++ v ++ [q] ++ post) tag
  = Ok (replace (pre ++ b "__version__ = " ++ v ++ [q] ++ post)
          (v ++ [q]) (v ++ tag_bytes tag)).
Proof.
  intros Hpre Hnone Hnl Hq Hpost.
  unfold stamp.
  rewrite splitlines_app; [| assumption | reflexivity].
  rewrite filter_app, Hnone, app_nil_l.
  destruct (@splitlines_first (b "__version__ = " ++ v ++ [q]) post)
    as (eol & more & E & Hsp); [discriminate | | assumption |].
  { unfold no_linebreak in *. rewrite forallb_app. now rewrite Hnl. }
  rewrite <- !app_assoc in E. rewrite E. cbn [filter].
  rewrite is_version_line_marker.
  unfold version_info_of. rewrite version_line_partition. cbn [snd].
  cbn [app].
  rewrite rstrip_value by assumption.
  now rewrite removelast_snoc.
Qed.

(** *** [replace] *)

Lemma replace_scan_skip (old new a r : bytes) :
  replace_scan old new (List.length a) (a ++ r) = replace_scan old new 0 r.
Proof. induction a as [| c a IH]; simpl; [reflexivity | exact IH]. Qed.

Lemma replace_scan_hit (old new r : bytes) :
  old <> [] ->
  replace_scan old new 0 (old ++ r) = new ++ replace_scan old new 0 r.
Proof.
  intros Hne. destruct old as [| o old]; [contradiction |].
  cbn [app replace_scan].
  change (o :: old ++ r) with ((o :: old) ++ r). rewrite startswith_app.
  f_equal. cbn [List.length]. rewrite Nat.sub_succ, Nat.sub_0_r.
  apply replace_scan_skip.
Qed.

Lemma replace_scan_miss (old new : bytes) (c : byte) (s : bytes) :
  startswith (c :: s) old = false ->
  replace_scan old new 0 (c :: s) = c :: replace_scan old new 0 s.
Proof. intros H. cbn [replace_scan]. now rewrite H. Qed.

Lemma replace_scan_before (old new pre rest : bytes) :
  starts_within pre rest old = false ->
  replace_scan old new 0 (pre ++ rest) = pre ++ replace_scan old new 0 rest.
Proof.
  induction pre as [| c pre IH]; [reflexivity |].
  cbn [starts_within]. intros H. apply orb_false_iff in H as [H1 H2].
  cbn [app] in *. rewrite replace_scan_miss by assumption.
  now rewrite IH.
Qed.

Lemma contains_starts_within (s old : bytes) :
  old <> [] -> contains s old = false -> starts_within s [] old = false.
Proof.
  intros Hne. induction s as [| c s IH]; [reflexivity |].
  cbn [contains starts_within]. intros H.
  apply orb_false_iff in H as [H1 H2].
  rewrite app_nil_r, H1. cbn [orb]. apply IH.
  destruct s; cbn [contains] in *; [| assumption].
  destruct old; [contradiction | reflexivity].
Qed.

Lemma replace_scan_absent (old new s : bytes) :
  old <> [] -> contains s old = false -> replace_scan old new 0 s = s.
Proof.
  intros Hne H.
  rewrite <- (app_nil_r s) at 1.
  rewrite replace_scan_before by now apply contains_starts_within.
  apply app_nil_r.
Qed.

(** An occurrence cannot reach over a byte that [old] does not hold. *)
Lemma startswith_over (c : byte) (r old pre : bytes) :
  existsb (Byte.eqb c) old = false ->
  old <> [] ->
  startswith (pre ++ c :: r) old = startswith pre old.
Proof.
  intros Hc. revert pre. induction old as [| o old IH]; intros pre Hne.
  - contradiction.
  - cbn [existsb] in Hc. apply orb_false_iff in Hc as [Hco Hc].
    destruct pre as [| p pre]; cbn [app startswith].
    + now rewrite Hco.
    + destruct old as [| o' old]; [reflexivity |].
      now rewrite IH.
Qed.

Lemma starts_within_over (c : byte) (r old pre : bytes) :
  existsb (Byte.eqb c) old = false ->
  old <> [] ->
  contains pre old = false ->
  starts_within pre (c :: r) old = false.
Proof.
  intros Hc Hne. induction pre as [| p pre IH]; [reflexivity |].
  cbn [contains starts_within]. intros H.
  apply orb_false_iff in H as [H1 H2].
  rewrite startswith_over, H1 by assumption. cbn [orb]. apply IH.
  destruct pre; cbn [contains] in *; [| assumption].
  destruct old; [contradiction | reflexivity].
Qed.

(** *** Lengths: a replacement by a longer value lengthens the buffer *)

Lemma replace_scan_length_le (old new s : bytes) :
  old <> [] ->
  List.length old <= List.length new ->
  List.length s <= List.length (replace_scan old new 0 s).
Proof.
  intros Hne Hlen.
  remember (List.length s) as n eqn:Hn.
  revert s Hn. induction n as [n IH] using lt_wf_ind. intros s Hn.
  destruct s as [| c s]; [subst; simpl; lia |].
  destruct (startswith (c :: s) old) eqn:E.
  - apply startswith_inv in E as [r E]. rewrite E.
    rewrite replace_scan_hit by assumption.
    assert (Hn' : n = List.length old + List.length r).
    { rewrite Hn, E. apply length_app. }
    rewrite length_app.
    assert (Hr : List.length r < n).
    { destruct old; [contradiction | simpl in *; lia]. }
    pose proof (IH _ Hr r eq_refl). lia.
  - rewrite replace_scan_miss by assumption. cbn [List.length] in *.
    pose proof (IH (List.length s) ltac:(lia) s eq_refl). lia.
Qed.

Lemma replace_scan_length_lt (old new a c : bytes) :
  old <> [] ->
  List.length old < List.length new ->
  List.length (a ++ old ++ c)
  < List.length (replace_scan old new 0 (a ++ old ++ c)).
Proof.
  intros Hne Hlen. induction a as [| x a IH].
  - cbn [app]. rewrite replace_scan_hit by assumption.
    rewrite !length_app.
    pose proof (@replace_scan_length_le old new c Hne ltac:(lia)). lia.
  - cbn [app].
    destruct (startswith (x :: a ++ old ++ c) old) eqn:E.
    + apply startswith_inv in E as [r E]. rewrite E.
      rewrite replace_scan_hit by assumption.
      rewrite !length_app.
      pose proof (@replace_scan_length_le old new r Hne ltac:(lia)). lia.
    + rewrite replace_scan_miss by assumption. cbn [List.length]. lia.
Qed.

Lemma flat_map_cons_length (new : bytes) (l : bytes) :
  List.length l <= List.length (flat_map (fun d => d :: new) l).
Proof. induction l as [| d l IH]; simpl; [lia |]. rewrite length_app. lia. Qed.

Lemma replace_length_lt (data old new a c : bytes) :
  data = a ++ old ++ c ->
  List.length old < List.length new ->
  List.length data < List.length (replace data old new).
Proof.
  intros -> Hlen. unfold replace. destruct old as [| o old'] eqn:Eo.
  - cbn [app]. rewrite !length_app.
    pose proof (flat_map_cons_length new (a ++ c)) as H.
    rewrite length_app in H. simpl in Hlen. lia.
  - rewrite <- Eo in *. apply replace_scan_length_lt; [| assumption].
    rewrite Eo. discriminate.
Qed.

Lemma filter_nil_existsb {A : Type} (p : A -> bool) (l : list A) :
  existsb p l = false <-> filter p l = [].
Proof.
  induction l as [| x l IH]; cbn; [tauto |].
  destruct (p x); cbn; [split; discriminate | exact IH].
Qed.

Lemma slice_0_m1_length (s : bytes) :
  List.length (slice_0_m1 s) = pred (List.length s).
Proof.
  unfold slice_0_m1. rewrite removelast_firstn_len, length_firstn. lia.
Qed.

(** The value of a version line lies in the buffer. *)
Lemma version_info_occurs (data line : bytes) :
  In line (filter is_version_line (splitlines data)) ->
  exists a c, data = a ++ version_info_of line ++ c.
Proof.
  intros Hin. apply filter_In in Hin as [Hin _].
  apply splitlines_In in Hin as (a & c & ->).
  pose proof (partition_concat line (b " = ")) as Hp.
  unfold version_info_of.
  destruct (partition line (b " = ")) as [[before found] after]. cbn [snd].
  destruct (rstrip_prefix after) as [ws Hws].
  exists (a ++ before ++ found), (ws ++ c).
  rewrite Hp, Hws at 1. now rewrite <- !app_assoc.
Qed.

(** The same with blanks between the value and the end of the line:
    [rstrip] removes them with the line ending. *)
Lemma stamp_shape_blanks (pre v ws post : bytes) (q : byte) (tag : string) :
  ends_line pre = true ->
  filter is_version_line (splitlines pre) = [] ->
  no_linebreak (v ++ [q]) = true ->
  isspace q = false ->
  forallb isspace ws = true ->
  no_linebreak ws = true ->
  at_line_end post = true ->
  stamp (pre ++ b "__version__ = " ++ v ++ [q] ++ ws ++ post) tag
  = Ok (replace (pre ++ b "__version__ = " ++ v ++ [q] ++ ws ++ post)
          (v ++ [q]) (v ++ tag_bytes tag)).
Proof.
  intros Hpre Hnone Hnl Hq Hws Hwsnl Hpost.
  unfold stamp.
  rewrite splitlines_app; [| assumption | reflexivity].
  rewrite filter_app, Hnone, app_nil_l.
  destruct (splitlines_first (b "__version__ = " ++ v ++ [q] ++ ws) post)
    as (eol & more & E & Hsp); [discriminate | | assumption |].
  { unfold no_linebreak in *. rewrite forallb_app. cbn [b].
    replace (v ++ [q] ++ ws) with ((v ++ [q]) ++ ws) by now rewrite <- app_assoc.
    rewrite forallb_app, Hnl, Hwsnl. reflexivity. }
  rewrite <- !app_assoc in E. rewrite E. cbn [filter].
  rewrite is_version_line_marker.
  unfold version_info_of. rewrite version_line_partition. cbn [snd].
  cbn [app].
  rewrite rstrip_value; [| assumption | rewrite forallb_app; now rewrite Hws].
  now rewrite removelast_snoc.
Qed.

End BytesFacts.

(** ** Statements and loops *)

Section StatementFacts.

Lemma archive_add_entry (arcname : string) (data : bytes) (o : Output) :
  archive (add_entry arcname data o) = archive o ++ [(arcname, data)].
Proof. reflexivity. Qed.

Lemma archive_names_add_entry (arcname : string) (data : bytes) (o : Output) :
  archive_names (add_entry arcname data o) = archive_names o ++ [arcname].
Proof. unfold archive_names. simpl. now rewrite map_app. Qed.

Lemma for_each_app {A : Type} (l1 l2 : list A) (body : A -> M unit) (o : Output) :
  for_each (l1 ++ l2) body o
  = match for_each l1 body o with
    | (Ok _, o1) => for_each l2 body o1
    | (Raise e, o1) => (Raise e, o1)
    end.
Proof.
  revert o. induction l1 as [| x l1 IH]; intros o; [reflexivity |].
  cbn [app for_each]. unfold bind.
  destruct (body x o) as [[[] | e] o1]; [apply IH | reflexivity].
Qed.

(** A loop each step of which writes the names [g x], or, when it raises,
    some of them: the loop writes a prefix of the names of its items, all
    of them when it completes. *)
Lemma for_each_names_any {A : Type} (l : list A) (body : A -> M unit)
    (g : A -> list string) :
  (forall x o, exists k t,
      archive_names (snd (body x o)) = archive_names o ++ k
      /\ g x = k ++ t
      /\ (fst (body x o) = Ok tt -> t = [])) ->
  forall o, exists k t,
      archive_names (snd (for_each l body o)) = archive_names o ++ k
      /\ flat_map g l = k ++ t
      /\ (fst (for_each l body o) = Ok tt -> t = []).
Proof.
  intros Hbody. induction l as [| x l IH]; intros o.
  - exists [], []. cbn. now rewrite app_nil_r.
  - cbn [for_each flat_map]. unfold bind.
    destruct (Hbody x o) as (k & t & Hk & Hg & Hok).
    destruct (body x o) as [[[] | e] o1]; cbn [fst snd] in *.
    + rewrite (Hok eq_refl), app_nil_r in Hg.
      destruct (IH o1) as (k' & t' & Hk' & Hg' & Hok').
      exists (k ++ k'), t'. rewrite Hk', Hk, Hg, Hg', <- !app_assoc.
      repeat split; assumption.
    + exists k, (t ++ flat_map g l). rewrite Hg, <- app_assoc.
      repeat split; assumption || discriminate.
Qed.

Lemma for_each_names {A : Type} (l : list A) (body : A -> M unit)
    (g : A -> list string) :
  (forall x o, exists k t,
      archive_names (snd (body x o)) = archive_names o ++ k
      /\ g x = k ++ t
      /\ (fst (body x o) = Ok tt -> t = [])) ->
  forall o o', for_each l body o = (Ok tt, o') ->
               archive_names o' = archive_names o ++ flat_map g l.
Proof.
  intros Hbody o o' H.
  destruct (for_each_names_any l body g Hbody o) as (k & t & Hk & Hg & Hok).
  rewrite H in Hk, Hok. cbn [fst snd] in *.
  now rewrite Hk, Hg, (Hok eq_refl), app_nil_r.
Qed.

(** A loop one of whose steps always raises never completes. *)
Lemma for_each_raises {A : Type} (l : list A) (body : A -> M unit) (x : A) :
  In x l ->
  (forall o, exists e, fst (body x o) = Raise e) ->
  forall o, exists e, fst (for_each l body o) = Raise e.
Proof.
  intros Hin Hx. induction l as [| y l IH]; [contradiction |].
  intros o. cbn [for_each]. unfold bind.
  destruct (body y o) as [[[] | e] o1] eqn:E.
  - destruct Hin as [-> | Hin].
    + destruct (Hx o) as [e He]. rewrite E in He. discriminate.
    + now apply IH.
  - now exists e.
Qed.

Lemma for_generated_raises {A : Type} (g : generated A) (body : A -> M unit)
    (e : exn) :
  finish g = Some e ->
  forall o, exists e', fst (for_generated g body o) = Raise e'.
Proof.
  intros Hg o. unfold for_generated, bind.
  destruct (for_each (yielded g) body o) as [[[] | e1] o1].
  - rewrite Hg. now exists e.
  - now exists e1.
Qed.

Lemma flat_map_filter {A B : Type} (p : A -> bool) (f : A -> B) (l : list A) :
  flat_map (fun x => if p x then [f x] else []) l = map f (filter p l).
Proof.
  induction l as [| x l IH]; [reflexivity |].
  cbn [flat_map filter]. rewrite IH. now destruct (p x).
Qed.

End StatementFacts.

(** ** The tree and the dependencies *)

Section RunFacts.

Import DBSakeBundler.

Variable os : OS.
Variable py : Interp.
Variable __file__ : string.
Variable deps : list (string * list string).

Lemma not_wanted_included (dirpath name : string) :
  (negb (not_wanted dirpath name) && negb (is_self os __file__ (OsPath.join dirpath name)))%bool
  = included os __file__ (dirpath, name).
Proof.
  unfold not_wanted, is_self, included.
  now rewrite negb_andb, !negb_involutive.
Qed.

(** What one step of the loop over [filenames] writes. *)
Lemma add_file_names (self_tag dirpath name : string) (o : Output) :
  exists k t,
    archive_names (snd (add_file os __file__ self_tag dirpath name o))
    = archive_names o ++ k
    /\ (if included os __file__ (dirpath, name)
        then [file_arcname (dirpath, name)] else []) = k ++ t
    /\ (fst (add_file os __file__ self_tag dirpath name o) = Ok tt -> t = []).
Proof.
  rewrite <- not_wanted_included. unfold add_file.
  destruct (not_wanted dirpath name); cbn [negb andb].
  { exists [], []. cbn. now rewrite app_nil_r. }
  destruct (is_self os __file__ (OsPath.join dirpath name)); cbn [negb].
  { exists [], []. cbn. now rewrite app_nil_r. }
  unfold file_arcname, file_path. cbn [fst snd].
  destruct (PyStr.endswith (OsPath.join dirpath name) "dbsake/__init__.py").
  - unfold bind, lift, ZipFile.writestr, modify.
    destruct (read_rb os (OsPath.join dirpath name)) as [data | e].
    + destruct (stamp data self_tag) as [data' | e]; cbn [fst snd].
      * eexists _, []. rewrite archive_names_add_entry. now repeat split.
      * eexists [], _. rewrite app_nil_r. repeat split. discriminate.
    + eexists [], _. cbn [fst snd]. rewrite app_nil_r. repeat split. discriminate.
  - unfold ZipFile.write, bind, lift, modify.
    destruct (read_rb os (OsPath.join dirpath name)) as [data | e]; cbn [fst snd].
    + eexists _, []. rewrite archive_names_add_entry. now repeat split.
    + eexists [], _. rewrite app_nil_r. repeat split. discriminate.
Qed.

Lemma tree_names_flat_map :
  flat_map (fun '(dirpath, _, filenames) =>
              flat_map (fun name => if included os __file__ (dirpath, name)
                                    then [file_arcname (dirpath, name)] else [])
                       filenames)
           (walk os "dbsake")
  = tree_names os __file__.
Proof.
  unfold tree_names, walked_files.
  induction (walk os "dbsake") as [| [[dirpath dirnames] filenames] w IH];
    [reflexivity |].
  cbn [flat_map]. rewrite filter_app, map_app, IH. f_equal.
  rewrite (flat_map_filter (fun name => included os __file__ (dirpath, name))
             (fun name => file_arcname (dirpath, name))).
  now rewrite filter_map_swap, map_map.
Qed.

(** The tree loop writes a prefix of [tree_names], all of it when it
    completes. *)
Lemma write_tree_names (self_tag : string) (o : Output) :
  exists k t,
    archive_names (snd (write_tree os __file__ self_tag o)) = archive_names o ++ k
    /\ tree_names os __file__ = k ++ t
    /\ (fst (write_tree os __file__ self_tag o) = Ok tt -> t = []).
Proof.
  rewrite <- tree_names_flat_map. unfold write_tree.
  apply for_each_names_any.
  intros [[dirpath dirnames] filenames] o1.
  apply for_each_names_any. intros name o2. apply add_file_names.
Qed.

Lemma writestr_source_names (name : string) (source : option string)
    (o : Output) :
  exists k t,
    archive_names (snd (ZipFile.writestr_source name source o))
    = archive_names o ++ k
    /\ [name] = k ++ t
    /\ (fst (ZipFile.writestr_source name source o) = Ok tt -> t = []).
Proof.
  unfold ZipFile.writestr_source, ZipFile.writestr, modify, raise.
  destruct source; cbn [fst snd].
  - eexists _, []. rewrite archive_names_add_entry. now repeat split.
  - eexists [], _. rewrite app_nil_r. repeat split. discriminate.
Qed.

Lemma flat_map_singleton {A B : Type} (f : A -> B) (l : list A) :
  flat_map (fun x => [f x]) l = map f l.
Proof. induction l as [| x l IH]; [reflexivity | cbn; now rewrite IH]. Qed.

(** The dependency loop writes a prefix of [dependency_names], all of it
    when it completes. *)
Lemma write_dependencies_names (o : Output) :
  exists k t,
    archive_names (snd (write_dependencies py deps o)) = archive_names o ++ k
    /\ dependency_names py deps = k ++ t
    /\ (fst (write_dependencies py deps o) = Ok tt -> t = []).
Proof.
  unfold write_dependencies, dependency_names. apply for_each_names_any.
  intros [depname excludes] o1. unfold for_generated, bind.
  destruct (for_each_names_any (yielded (fetch_source py depname excludes))
              (fun '(name, source) => ZipFile.writestr_source name source)
              (fun item => [fst item])
              ltac:(intros [name source] o2; apply writestr_source_names) o1)
    as (k & t & Hk & Hg & Hok).
  rewrite flat_map_singleton in Hg.
  destruct (for_each _ _ o1) as [[[] | e] o3]; cbn [fst snd] in *.
  - rewrite (Hok eq_refl), app_nil_r in Hg.
    destruct (finish _); cbn [fst snd].
    + exists k, []. rewrite app_nil_r. repeat split; assumption || discriminate.
    + exists k, []. rewrite app_nil_r. now repeat split.
  - exists k, t. repeat split; assumption || discriminate.
Qed.

(** The shape of [run]: the directory, the file, then the archive. *)
Lemma run_eq (dist_dir self_tag : string) (o : Output) :
  run os py __file__ deps dist_dir self_tag o
  = match make_dist_dir os dist_dir o with
    | (Raise e, o1) => (Raise e, o1)
    | (Ok _, o1) =>
        let name := OsPath.join dist_dir "dbsake.sh" in
        match open_wb os name with
        | Raise e => (Raise e, o1)
        | Ok _ =>
            let (r, o2) :=
              (write_tree os __file__ self_tag ;; write_dependencies py deps)
                (add_header (PyStr.encode SHELL_SCRIPT)
                   (set_mode mode_rwx_user (set_opened name o1))) in
            match r with
            | Ok _ =>
                (Ok tt,
                 add_stderr ("Generated " ++ name)%string
                   (close_file (close_archive o2)))
            | Raise e => (Raise e, close_file (close_archive o2))
            end
        end
    end.
Proof.
  unfold run. unfold bind at 1.
  destruct (make_dist_dir os dist_dir o) as [[[] | e] o1]; [| reflexivity].
  cbv zeta. unfold bind at 1. unfold lift at 1.
  destruct (open_wb os (OsPath.join dist_dir "dbsake.sh")) as [[] | e];
    [| reflexivity].
  unfold bind at 1. unfold modify at 1.
  unfold bind at 1. unfold with_ at 1.
  unfold bind at 1. unfold modify at 1.
  unfold bind at 1. unfold modify at 1.
  unfold with_ at 1.
  destruct ((write_tree os __file__ self_tag ;; write_dependencies py deps) _)
    as [[[] | e] o2]; reflexivity.
Qed.

Lemma make_dist_dir_output (dist_dir : string) (o : Output) :
  snd (make_dist_dir os dist_dir o) = o.
Proof.
  unfold make_dist_dir.
  destruct (makedirs os dist_dir) as [[] | []]; try reflexivity.
  now destruct (errno =? EEXIST)%Z.
Qed.

(** The archive paths of a run, however it ends: a prefix of the names
    of the tree followed by those of the dependencies, and all of them
    when the run completes. *)
Lemma run_names (dist_dir self_tag : string) :
  exists k t,
    archive_names (snd (run os py __file__ deps dist_dir self_tag no_output)) = k
    /\ tree_names os __file__ ++ dependency_names py deps = k ++ t
    /\ (fst (run os py __file__ deps dist_dir self_tag no_output) = Ok tt
        -> t = []).
Proof.
  rewrite run_eq.
  pose proof (make_dist_dir_output dist_dir no_output) as Hmk.
  destruct (make_dist_dir os dist_dir no_output) as [[[] | e] o1];
    cbn [snd] in Hmk; subst o1.
  2: { eexists [], _. repeat split. discriminate. }
  cbv zeta. destruct (open_wb os _) as [[] | e].
  2: { eexists [], _. repeat split. discriminate. }
  unfold bind.
  match goal with
  | |- context [write_tree os __file__ self_tag ?o] =>
      destruct (write_tree_names self_tag o) as (k1 & t1 & Hk1 & Hg1 & Hok1);
      change (archive_names o) with (@nil string) in Hk1
  end.
  destruct (write_tree os __file__ self_tag _) as [[[] | e] o2];
    cbn [fst snd app] in *.
  2: { exists k1, (t1 ++ dependency_names py deps).
       rewrite Hg1, <- app_assoc. repeat split; assumption || discriminate. }
  rewrite (Hok1 eq_refl), app_nil_r in Hg1.
  destruct (write_dependencies_names o2) as (k2 & t2 & Hk2 & Hg2 & Hok2).
  destruct (write_dependencies py deps o2) as [[[] | e] o3];
    cbn [fst snd] in *.
  - exists (k1 ++ k2), t2.
    change (archive_names (add_stderr _ (close_file (close_archive o3))))
      with (archive_names o3).
    rewrite Hk2, Hk1, Hg1, Hg2, <- app_assoc. repeat split. assumption.
  - exists (k1 ++ k2), t2.
    change (archive_names (close_file (close_archive o3)))
      with (archive_names o3).
    rewrite Hk2, Hk1, Hg1, Hg2, <- app_assoc. repeat split. discriminate.
Qed.

Lemma run_ok_names (dist_dir self_tag : string) (o' : Output) :
  run os py __file__ deps dist_dir self_tag no_output = (Ok tt, o') ->
  archive_names o' = tree_names os __file__ ++ dependency_names py deps.
Proof.
  intros H. destruct (run_names dist_dir self_tag) as (k & t & Hk & Hg & Hok).
  rewrite H in Hk, Hok. cbn [fst snd] in *.
  now rewrite Hk, Hg, (Hok eq_refl), app_nil_r.
Qed.

(** A run whose dependencies cannot all be written never completes. *)
Lemma run_raises (dist_dir self_tag : string) :
  (forall o, exists e, fst (write_dependencies py deps o) = Raise e) ->
  forall o, exists e, fst (run os py __file__ deps dist_dir self_tag o) = Raise e.
Proof.
  intros Hd o. rewrite run_eq.
  destruct (make_dist_dir os dist_dir o) as [[[] | e] o1]; [| now exists e].
  cbv zeta. destruct (open_wb os _) as [[] | e]; [| now exists e].
  unfold bind.
  destruct (write_tree os __file__ self_tag _) as [[[] | e] o2];
    [| now exists e].
  destruct (Hd o2) as [e He].
  destruct (write_dependencies py deps o2) as [[[] | e'] o3]; [discriminate |].
  now exists e'.
Qed.

(** *** Single files *)

Lemma add_file_skip (self_tag dirpath name : string) (o : Output) :
  included os __file__ (dirpath, name) = false ->
  add_file os __file__ self_tag dirpath name o = (Ok tt, o).
Proof.
  rewrite <- not_wanted_included. unfold add_file. intros H.
  destruct (not_wanted dirpath name); [reflexivity |].
  destruct (is_self os __file__ (OsPath.join dirpath name));
    [reflexivity | discriminate].
Qed.

Lemma add_file_copy (self_tag dirpath name : string) (data : bytes) (o : Output) :
  included os __file__ (dirpath, name) = true ->
  PyStr.endswith (OsPath.join dirpath name) "dbsake/__init__.py" = false ->
  read_rb os (OsPath.join dirpath name) = Ok data ->
  add_file os __file__ self_tag dirpath name o
  = (Ok tt, add_entry (file_arcname (dirpath, name)) data o).
Proof.
  rewrite <- not_wanted_included. unfold add_file. intros H Hinit Hread.
  destruct (not_wanted dirpath name); [discriminate |].
  destruct (is_self os __file__ (OsPath.join dirpath name)); [discriminate |].
  rewrite Hinit. unfold ZipFile.write, bind, lift, modify. now rewrite Hread.
Qed.

Lemma add_file_no_version (self_tag dirpath name : string) (data : bytes)
    (o : Output) :
  included os __file__ (dirpath, name) = true ->
  PyStr.endswith (OsPath.join dirpath name) "dbsake/__init__.py" = true ->
  read_rb os (OsPath.join dirpath name) = Ok data ->
  filter is_version_line (splitlines data) = [] ->
  add_file os __file__ self_tag dirpath name o = (Raise IndexError, o).
Proof.
  rewrite <- not_wanted_included. unfold add_file. intros H Hinit Hread Hnone.
  destruct (not_wanted dirpath name); [discriminate |].
  destruct (is_self os __file__ (OsPath.join dirpath name)); [discriminate |].
  rewrite Hinit. unfold bind, lift. rewrite Hread. unfold stamp.
  now rewrite Hnone.
Qed.

(** Files that are copied as they are: each included one adds its entry. *)
Lemma for_each_copies (contents : string -> bytes) (self_tag dirpath : string)
    (names : list string) (o : Output) :
  Forall (fun name => read_rb os (OsPath.join dirpath name)
                      = Ok (contents (OsPath.join dirpath name))) names ->
  forallb (fun name =>
             negb (PyStr.endswith (OsPath.join dirpath name) "dbsake/__init__.py"))
          names = true ->
  exists o1,
    for_each names (add_file os __file__ self_tag dirpath) o = (Ok tt, o1)
    /\ archive o1
       = archive o
         ++ map (fun name => (file_arcname (dirpath, name),
                              contents (OsPath.join dirpath name)))
                (filter (fun name => included os __file__ (dirpath, name)) names).
Proof.
  revert o. induction names as [| name names IH]; intros o Hread Hinit.
  - exists o. split; [reflexivity | now rewrite app_nil_r].
  - inversion Hread as [| ? ? Hr Hrs]; subst.
    cbn [forallb] in Hinit. apply andb_true_iff in Hinit as [Hi His].
    apply negb_true_iff in Hi.
    cbn [for_each filter]. unfold bind.
    destruct (included os __file__ (dirpath, name)) eqn:Einc.
    + rewrite (add_file_copy self_tag dirpath name _ o Einc Hi Hr).
      destruct (IH (add_entry (file_arcname (dirpath, name))
                      (contents (OsPath.join dirpath name)) o) Hrs His)
        as (o1 & E1 & A1).
      exists o1. split; [assumption |].
      rewrite A1, archive_add_entry, <- app_assoc. reflexivity.
    + rewrite (add_file_skip self_tag dirpath name o Einc).
      destruct (IH o Hrs His) as (o1 & E1 & A1).
      exists o1. split; assumption.
Qed.

End RunFacts.

(** ** The resolver *)

Section ResolverFacts.

Lemma is_excluded_existsb (name : string) (excludes : list string) :
  is_excluded name excludes
  = existsb (fun prefix => String.prefix prefix name) excludes.
Proof.
  induction excludes as [| p excludes IH]; [reflexivity |].
  cbn [is_excluded existsb]. unfold PyStr.startswith.
  now destruct (String.prefix p name).
Qed.

Lemma is_excluded_empty_prefix (name : string) (excludes : list string) :
  In ""%string excludes -> is_excluded name excludes = true.
Proof.
  intros Hin. rewrite is_excluded_existsb. apply existsb_exists.
  exists ""%string. split; [assumption | now destruct name].
Qed.

Lemma fetch_walked_all (excludes : list string)
    (walked : list (Importer * string * bool)) :
  (forall m, In m walked -> not_excluded excludes m = true ->
             exists source, walked_source m = Some source) ->
  fetch_walked excludes walked
  = Generated (map walked_entry (filter (not_excluded excludes) walked)) None.
Proof.
  induction walked as [| [[importer name] is_pkg] walked IH]; intros Hsrc;
    [reflexivity |].
  cbn [fetch_walked filter]. unfold not_excluded at 1, walked_name at 1.
  cbn [fst snd].
  destruct (is_excluded name excludes) eqn:Eex; cbn [negb].
  - apply IH. intros m Hm. apply Hsrc. now right.
  - destruct (Hsrc (importer, name, is_pkg) (or_introl eq_refl)) as [source Hs].
    { unfold not_excluded, walked_name. cbn [fst snd]. now rewrite Eex. }
    unfold walked_entry at 1, walked_name at 1. cbn [fst snd map].
    unfold walked_source in Hs |- *.
    destruct (find_module importer name) as [loader |]; [| discriminate].
    rewrite Hs. rewrite IH by (intros m Hm; apply Hsrc; now right).
    reflexivity.
Qed.

Lemma fetch_walked_app (excludes : list string)
    (before after : list (Importer * string * bool))
    (ys : list (string * option string)) :
  fetch_walked excludes before = Generated ys None ->
  fetch_walked excludes (before ++ after)
  = Generated (ys ++ yielded (fetch_walked excludes after))
              (finish (fetch_walked excludes after)).
Proof.
  revert ys. induction before as [| [[importer name] is_pkg] before IH];
    intros ys H.
  - cbn in H. inversion H; subst. cbn [app]. now destruct (fetch_walked _ after).
  - cbn [app fetch_walked] in *.
    destruct (is_excluded name excludes); [now apply IH |].
    destruct (find_module importer name) as [loader |]; [| discriminate].
    destruct (get_source loader name) as [source |]; [| discriminate].
    unfold gen_yield in *.
    destruct (fetch_walked excludes before) as [ys' fin'] eqn:Eb.
    cbn [yielded finish] in H. inversion H; subst.
    rewrite (IH ys' eq_refl). reflexivity.
Qed.

(** The walk stops at the first module without source. *)
Lemma fetch_walked_missing (excludes : list string)
    (before after : list (Importer * string * bool))
    (importer : Importer) (name : string) (is_pkg : bool) (loader : Loader) :
  (forall m, In m before -> not_excluded excludes m = true ->
             exists source, walked_source m = Some source) ->
  is_excluded name excludes = false ->
  find_module importer name = Some loader ->
  get_source loader name = None ->
  fetch_walked excludes (before ++ (importer, name, is_pkg) :: after)
  = Generated (map walked_entry (filter (not_excluded excludes) before))
              (Some AssertionError).
Proof.
  intros Hbefore Hex Hfind Hsrc.
  rewrite fetch_walked_app
    with (ys := map walked_entry (filter (not_excluded excludes) before))
    by now apply fetch_walked_all.
  cbn [fetch_walked]. rewrite Hex, Hfind, Hsrc. cbn. now rewrite app_nil_r.
Qed.

End ResolverFacts.

Section TreeNameFacts.

Lemma file_arcname_main (f : string * string) :
  is_main f = true -> file_arcname f = "__main__.py"%string.
Proof.
  unfold is_main, file_arcname, DBSakeBundler.arcname_of. intros H.
  rewrite H. cbn [negb]. now apply String.eqb_eq.
Qed.

Lemma file_arcname_other (f : string * string) :
  is_main f = false -> file_arcname f = file_path f.
Proof.
  unfold is_main, file_arcname, DBSakeBundler.arcname_of. intros H.
  now rewrite H.
Qed.

Lemma filter_In_length {A : Type} (p : A -> bool) (l : list A) (x : A) :
  In x l -> p x = true -> 1 <= List.length (filter p l).
Proof.
  intros Hin Hp.
  assert (H : In x (filter p l)) by now apply filter_In.
  destruct (filter p l); [contradiction | cbn; lia].
Qed.

(** Keeping some of the files keeps their paths distinct. *)
Lemma kept_paths_distinct (keep : string * string -> bool)
    (files : list (string * string)) :
  NoDup (map file_path files) -> NoDup (map file_path (filter keep files)).
Proof.
  induction files as [| f files IH]; cbn [map filter]; intros Hnd;
    [constructor |].
  apply NoDup_cons_iff in Hnd as [Hf Hnd].
  destruct (keep f); [| now apply IH].
  cbn [map]. apply NoDup_cons; [| now apply IH].
  intros (g & Eg & Hg)%in_map_iff. apply filter_In in Hg as [Hg _].
  apply Hf. apply in_map_iff. now exists g.
Qed.

(** Files with distinct paths get distinct archive paths, as long as at
    most one of them is an entry point and no path is the bare entry-point
    name. *)
Lemma file_arcname_NoDup (l : list (string * string)) :
  NoDup (map file_path l) ->
  (forall f, In f l -> file_path f <> "__main__.py"%string) ->
  List.length (filter is_main l) <= 1 ->
  NoDup (map file_arcname l).
Proof.
  induction l as [| x l IH]; intros Hnd Hpath Hmain; [constructor |].
  cbn [map] in *. apply NoDup_cons_iff in Hnd as [Hx Hnd].
  assert (Hmain' : List.length (filter is_main l) <= 1).
  { cbn [filter] in Hmain. destruct (is_main x); cbn in Hmain; lia. }
  constructor; [| apply IH; auto using in_cons].
  intros Hin. apply in_map_iff in Hin as (y & Ey & Hy).
  destruct (is_main x) eqn:Ex, (is_main y) eqn:Emy.
  - pose proof (filter_In_length is_main l y Hy Emy).
    cbn [filter] in Hmain. rewrite Ex in Hmain. cbn in Hmain. lia.
  - rewrite (file_arcname_main x Ex), (file_arcname_other y Emy) in Ey.
    apply (Hpath y); [now right | assumption].
  - rewrite (file_arcname_other x Ex), (file_arcname_main y Emy) in Ey.
    apply (Hpath x); [now left | now symmetry].
  - rewrite (file_arcname_other x Ex), (file_arcname_other y Emy) in Ey.
    apply Hx. apply in_map_iff. now exists y.
Qed.

End TreeNameFacts.

(** * The claims *)

(** ** The version stamp *)

Section StampClaims.

(** C1, as amended: for every init file with a version line, the stamp
    with an empty tag does not give the input back.  The value of the first
    version line loses its last byte and gains a space and a single quote,
    wherever it occurs, and the result is longer than the input. *)
Theorem stamp_empty_tag_appends_space (data : bytes) :
  has_version_line data = true ->
  exists line out,
    hd_error (filter is_version_line (splitlines data)) = Some line
    /\ stamp data "" = Ok out
    /\ out = replace data (version_info_of line)
                (slice_0_m1 (version_info_of line) ++ [SPACE; SQUOTE])
    /\ List.length data < List.length out
    /\ out <> data.
Proof.
  intros Hv. unfold has_version_line in Hv.
  destruct (filter is_version_line (splitlines data)) as [| line rest] eqn:E.
  { apply filter_nil_existsb in E. congruence. }
  assert (Hlen : List.length data
                 < List.length (replace data (version_info_of line)
                     (slice_0_m1 (version_info_of line) ++ [SPACE; SQUOTE]))).
  { destruct (@version_info_occurs data line) as (a & c & Hocc).
    { rewrite E. now left. }
    apply (replace_length_lt _ _ _ _ _ Hocc).
    rewrite length_app, slice_0_m1_length. cbn [List.length]. lia. }
  exists line, (replace data (version_info_of line)
                  (slice_0_m1 (version_info_of line) ++ [SPACE; SQUOTE])).
  repeat split; try assumption.
  - unfold stamp. now rewrite E.
  - intros Heq. rewrite Heq in Hlen. lia.
Qed.

Lemma stamp_empty_tag_witness :
  has_version_line Fixture.init_py = true
  /\ exists line out,
       hd_error (filter is_version_line (splitlines Fixture.init_py)) = Some line
       /\ stamp Fixture.init_py "" = Ok out
       /\ out = replace Fixture.init_py (version_info_of line)
                   (slice_0_m1 (version_info_of line) ++ [SPACE; SQUOTE])
       /\ List.length Fixture.init_py < List.length out
       /\ out <> Fixture.init_py.
Proof.
  split; [reflexivity |].
  apply (stamp_empty_tag_appends_space Fixture.init_py). reflexivity.
Defined.

(** C1 as stated fails: the empty tag leaves a space before the closing
    quote. *)
Lemma stamp_empty_tag_not_identity :
  has_version_line (b "__version__ = '1.2.3'" ++ [LF]) = true
  /\ stamp (b "__version__ = '1.2.3'" ++ [LF]) ""
     = Ok (b "__version__ = '1.2.3 '" ++ [LF])
  /\ stamp (b "__version__ = '1.2.3'" ++ [LF]) ""
     <> Ok (b "__version__ = '1.2.3'" ++ [LF]).
Proof. split; [reflexivity | split; [reflexivity | discriminate]]. Qed.

(** C2, as amended: with the line [__version__ = '1.2.3'] as the first
    version line of the buffer, and the tag [abc], [data.replace] rewrites
    every occurrence of ['1.2.3'], not the first alone; when the value
    occurs nowhere before or after the line, the result holds
    [__version__ = '1.2.3 abc'] and every other byte is as in the input. *)
Theorem stamp_abc_single_occurrence (pre post : bytes) :
  ends_line pre = true ->
  has_version_line pre = false ->
  at_line_end post = true ->
  contains pre (b "'1.2.3'") = false ->
  contains post (b "'1.2.3'") = false ->
  stamp (pre ++ b "__version__ = '1.2.3'" ++ post) "abc"
  = Ok (pre ++ b "__version__ = '1.2.3 abc'" ++ post).
Proof.
  intros Hpre Hnone Hpost Hcpre Hcpost.
  apply filter_nil_existsb in Hnone.
  change (b "__version__ = '1.2.3'" ++ post)
    with (b "__version__ = " ++ b "'1.2.3" ++ [SQUOTE] ++ post).
  rewrite stamp_shape by (assumption || reflexivity).
  f_equal.
  change (b "'1.2.3" ++ [SQUOTE]) with (b "'1.2.3'").
  change (b "'1.2.3" ++ tag_bytes "abc") with (b "'1.2.3 abc'").
  change (replace ?s (b "'1.2.3'") ?n) with (replace_scan (b "'1.2.3'") n 0 s).
  change (b "__version__ = " ++ b "'1.2.3" ++ [SQUOTE] ++ post)
    with (x5f :: (b "_version__ = " ++ b "'1.2.3'" ++ post)).
  rewrite replace_scan_before
    by (apply starts_within_over; [reflexivity | discriminate | assumption]).
  f_equal.
  change (x5f :: (b "_version__ = " ++ b "'1.2.3'" ++ post))
    with (b "__version__ = " ++ b "'1.2.3'" ++ post).
  rewrite replace_scan_before by reflexivity.
  rewrite replace_scan_hit by discriminate.
  rewrite replace_scan_absent by (discriminate || assumption).
  reflexivity.
Qed.

Lemma stamp_abc_single_occurrence_witness :
  ends_line (b "# dbsake" ++ [LF]) = true
  /\ has_version_line (b "# dbsake" ++ [LF]) = false
  /\ at_line_end (CR :: LF :: b "__author__ = 'x'") = true
  /\ contains (b "# dbsake" ++ [LF]) (b "'1.2.3'") = false
  /\ contains (CR :: LF :: b "__author__ = 'x'") (b "'1.2.3'") = false
  /\ stamp ((b "# dbsake" ++ [LF]) ++ b "__version__ = '1.2.3'"
              ++ CR :: LF :: b "__author__ = 'x'") "abc"
     = Ok ((b "# dbsake" ++ [LF]) ++ b "__version__ = '1.2.3 abc'"
             ++ CR :: LF :: b "__author__ = 'x'").
Proof.
  repeat (split; [reflexivity |]).
  apply (stamp_abc_single_occurrence
           (b "# dbsake" ++ [LF]) (CR :: LF :: b "__author__ = 'x'"));
    reflexivity.
Defined.

(** C2 as stated fails: a second occurrence of the value, outside the
    version line, is rewritten too. *)
Lemma stamp_abc_rewrites_other_lines :
  stamp (b "__version__ = '1.2.3'" ++ [LF] ++ b "legacy = '1.2.3'" ++ [LF]) "abc"
  = Ok (b "__version__ = '1.2.3 abc'" ++ [LF]
          ++ b "legacy = '1.2.3 abc'" ++ [LF])
  /\ stamp (b "__version__ = '1.2.3'" ++ [LF] ++ b "legacy = '1.2.3'" ++ [LF]) "abc"
     <> Ok (b "__version__ = '1.2.3 abc'" ++ [LF]
              ++ b "legacy = '1.2.3'" ++ [LF]).
Proof. split; [reflexivity | discriminate]. Qed.

(** C7, as amended: when the first version line is [__version__ = ]
    followed by a value [v] with a last byte [q] that is no blank, then by
    any blanks, then by the end of the line or of the buffer, the stamp
    strips the blanks and the line ending, removes [q] and appends a
    space, the tag and a single quote; [replace] puts the new value for
    the old one in the buffer.  The byte appended is the single quote
    whatever [q] was, so it is [q] again for a single-quoted value only. *)
Theorem stamp_appends_single_quote (pre v ws post : bytes) (q : byte)
    (tag : string) :
  ends_line pre = true ->
  has_version_line pre = false ->
  no_linebreak (v ++ [q]) = true ->
  isspace q = false ->
  forallb isspace ws = true ->
  no_linebreak ws = true ->
  at_line_end post = true ->
  stamp (pre ++ b "__version__ = " ++ v ++ [q] ++ ws ++ post) tag
  = Ok (replace (pre ++ b "__version__ = " ++ v ++ [q] ++ ws ++ post)
          (v ++ [q]) (v ++ [SPACE] ++ PyStr.encode tag ++ [SQUOTE])).
Proof.
  intros Hpre Hnone Hnl Hq Hws Hwsnl Hpost.
  apply filter_nil_existsb in Hnone.
  rewrite <- tag_bytes_eq. now apply stamp_shape_blanks.
Qed.

Lemma stamp_appends_single_quote_witness :
  ends_line (b "# dbsake" ++ [LF]) = true
  /\ has_version_line (b "# dbsake" ++ [LF]) = false
  /\ no_linebreak (DQUOTE :: b "2.0" ++ [DQUOTE]) = true
  /\ isspace DQUOTE = false
  /\ forallb isspace [SPACE; x09] = true
  /\ no_linebreak [SPACE; x09] = true
  /\ at_line_end (CR :: LF :: b "name = 'dbsake'") = true
  /\ stamp ((b "# dbsake" ++ [LF]) ++ b "__version__ = "
              ++ (DQUOTE :: b "2.0") ++ [DQUOTE] ++ [SPACE; x09]
              ++ CR :: LF :: b "name = 'dbsake'") "rc1"
     = Ok (b "# dbsake" ++ [LF] ++ b "__version__ = "
             ++ (DQUOTE :: b "2.0 rc1'") ++ [SPACE; x09]
             ++ CR :: LF :: b "name = 'dbsake'").
Proof.
  repeat (split; [reflexivity |]).
  rewrite (stamp_appends_single_quote
             (b "# dbsake" ++ [LF]) (DQUOTE :: b "2.0") [SPACE; x09]
             (CR :: LF :: b "name = 'dbsake'") DQUOTE "rc1");
    reflexivity.
Defined.

(** C7 as stated fails: a double-quoted value is closed by a single
    quote. *)
Lemma stamp_double_quote_not_kept :
  stamp (b "__version__ = " ++ (DQUOTE :: b "1.2.3") ++ [DQUOTE; LF]) "abc"
  = Ok (b "__version__ = " ++ (DQUOTE :: b "1.2.3 abc'") ++ [LF])
  /\ stamp (b "__version__ = " ++ (DQUOTE :: b "1.2.3") ++ [DQUOTE; LF]) "abc"
     <> Ok (b "__version__ = " ++ (DQUOTE :: b "1.2.3 abc") ++ [DQUOTE; LF]).
Proof. split; [reflexivity | discriminate]. Qed.

End StampClaims.

(** ** The run *)

Section RunClaims.

Import DBSakeBundler.

(** C3, as amended: when the init file of [dbsake] has no line that begins
    with [__version__ = ], the run ends with the [IndexError] of
    [version[0]], and the archive then holds the entries of the included
    files the walk listed before the init file, so none only when it is
    the first. *)
Theorem run_missing_version (os : OS) (py : Interp) (__file__ : string)
    (deps : list (string * list string)) (dist_dir self_tag : string)
    (dirnames before after : list string)
    (more : list (string * list string * list string))
    (contents : string -> bytes) :
  makedirs os dist_dir = Ok tt ->
  open_wb os (OsPath.join dist_dir "dbsake.sh") = Ok tt ->
  walk os "dbsake"
  = ("dbsake", dirnames, before ++ "__init__.py" :: after) :: more ->
  (abspath os "dbsake/__init__.py" =? __file__)%string = false ->
  Forall (fun name => read_rb os (OsPath.join "dbsake" name)
                      = Ok (contents (OsPath.join "dbsake" name)))
         (before ++ ["__init__.py"]) ->
  forallb (fun name =>
             negb (PyStr.endswith (OsPath.join "dbsake" name) "dbsake/__init__.py"))
          before = true ->
  has_version_line (contents "dbsake/__init__.py") = false ->
  fst (run os py __file__ deps dist_dir self_tag no_output) = Raise IndexError
  /\ archive (snd (run os py __file__ deps dist_dir self_tag no_output))
     = map (fun name => (file_arcname ("dbsake", name),
                         contents (OsPath.join "dbsake" name)))
           (filter (fun name => included os __file__ ("dbsake", name)) before).
Proof.
  intros Hmk Hopen Hwalk Hself Hread Hinit Hnone.
  apply Forall_app in Hread as [Hread Hread0].
  inversion Hread0 as [| ? ? Hread1 _]; subst. clear Hread0.
  apply filter_nil_existsb in Hnone.
  assert (Hinc : included os __file__ ("dbsake", "__init__.py") = true).
  { unfold included.
    change (OsPath.join "dbsake" "__init__.py") with "dbsake/__init__.py"%string.
    now rewrite Hself. }
  destruct (for_each_copies os __file__ contents self_tag "dbsake" before
              (header_output (OsPath.join dist_dir "dbsake.sh")) Hread Hinit)
    as (o1 & E1 & A1).
  assert (Hrun : run os py __file__ deps dist_dir self_tag no_output
                 = (Raise IndexError, close_file (close_archive o1))).
  { rewrite run_eq. unfold make_dist_dir. rewrite Hmk. unfold ret. cbv zeta.
    rewrite Hopen. unfold bind at 1. unfold write_tree. rewrite Hwalk.
    cbn [for_each]. unfold bind at 1. rewrite for_each_app.
    fold (header_output (OsPath.join dist_dir "dbsake.sh")).
    rewrite E1. cbn [for_each]. unfold bind at 1.
    now rewrite (add_file_no_version os __file__ self_tag "dbsake" "__init__.py"
                   (contents "dbsake/__init__.py") o1 Hinc eq_refl Hread1 Hnone). }
  rewrite Hrun. cbn [fst snd]. split; [reflexivity | exact A1].
Qed.

Lemma run_missing_version_witness :
  let os := Fixture.machine (Ok tt) Fixture.tree_init_second
              Fixture.files_no_version in
  let r := run os (Fixture.interpreter Fixture.plain_modules) Fixture.self_file
             dependencies "dist" "rc1" no_output in
  has_version_line (b "# dbsake" ++ [LF]) = false
  /\ fst r = Raise IndexError
  /\ archive (snd r) = [("dbsake/cli.py"%string, b "pass")].
Proof.
  cbv zeta. split; [reflexivity |].
  destruct (run_missing_version
              (Fixture.machine (Ok tt) Fixture.tree_init_second
                 Fixture.files_no_version)
              (Fixture.interpreter Fixture.plain_modules) Fixture.self_file
              dependencies "dist" "rc1" [] ["cli.py"%string] [] []
              (fun p => match Fixture.lookup p Fixture.files_no_version with
                        | Ok data => data
                        | Raise _ => []
                        end))
    as [Hfst Harchive];
    try reflexivity.
  - repeat constructor.
  - split; [exact Hfst | rewrite Harchive; reflexivity].
Defined.

(** C3 as stated fails: a file walked before an init file without version
    line is already in the archive when the run stops. *)
Lemma run_missing_version_after_entries :
  let os := Fixture.machine (Ok tt) Fixture.tree_init_second
              Fixture.files_no_version in
  let r := run os (Fixture.interpreter Fixture.mixed_modules) Fixture.self_file
             dependencies "dist" "" no_output in
  read_rb os "dbsake/__init__.py" = Ok (b "# dbsake" ++ [LF])
  /\ has_version_line (b "# dbsake" ++ [LF]) = false
  /\ fst r = Raise IndexError
  /\ archive_names (snd r) = ["dbsake/cli.py"%string]
  /\ archive (snd r) <> [].
Proof.
  cbv zeta. repeat (split; [reflexivity |]). discriminate.
Qed.

(** C5: in a run that completes, the entries of the tree are, in walk
    order, those of the walked files whose name ends in [.py] or whose
    directory has the base name [templates], without the file whose
    absolute path is [__file__]; the entries of the dependencies follow. *)
Theorem run_tree_inclusion (os : OS) (py : Interp) (__file__ : string)
    (deps : list (string * list string)) (dist_dir self_tag : string)
    (o' : Output) :
  run os py __file__ deps dist_dir self_tag no_output = (Ok tt, o') ->
  archive_names o'
  = map file_arcname
        (filter (fun '(dirpath, name) =>
                   (PyStr.endswith name ".py"
                    || (OsPath.basename dirpath =? "templates")%string)
                   && negb (abspath os (OsPath.join dirpath name) =? __file__)%string)
                (walked_files os))
    ++ dependency_names py deps.
Proof.
  intros H. rewrite (run_ok_names os py __file__ deps dist_dir self_tag o' H).
  reflexivity.
Qed.

Lemma run_tree_inclusion_witness :
  let os := Fixture.machine (Ok tt) Fixture.tree Fixture.files in
  let py := Fixture.interpreter Fixture.plain_modules in
  let r := run os py Fixture.self_file dependencies "dist" "rc1" no_output in
  r = (Ok tt, snd r)
  /\ walked_files os
     = [ ("dbsake", "__init__.py"); ("dbsake", "__main__.py");
         ("dbsake", "cli.py"); ("dbsake", "distutils_ext.py");
         ("dbsake", "README"); ("dbsake/templates", "my.cnf") ]%string
  /\ archive_names (snd r)
     = [ "dbsake/__init__.py"; "__main__.py"; "dbsake/cli.py";
         "dbsake/templates/my.cnf" ]%string
       ++ dependency_names py dependencies.
Proof.
  cbv zeta.
  assert (H : run (Fixture.machine (Ok tt) Fixture.tree Fixture.files)
                (Fixture.interpreter Fixture.plain_modules) Fixture.self_file
                dependencies "dist" "rc1" no_output
              = (Ok tt,
                 snd (run (Fixture.machine (Ok tt) Fixture.tree Fixture.files)
                        (Fixture.interpreter Fixture.plain_modules)
                        Fixture.self_file dependencies "dist" "rc1" no_output)))
    by (vm_compute; reflexivity).
  split; [exact H |]. split; [reflexivity |].
  rewrite (run_tree_inclusion
             (Fixture.machine (Ok tt) Fixture.tree Fixture.files)
             (Fixture.interpreter Fixture.plain_modules) Fixture.self_file
             dependencies "dist" "rc1" _ H).
  reflexivity.
Defined.

(** C8 as stated fails: two files named [__main__.py] in different
    directories are both written under the archive path [__main__.py]. *)
Lemma run_two_entry_points_collide :
  let os := Fixture.machine (Ok tt) Fixture.tree_two_mains Fixture.files in
  let r := run os (Fixture.interpreter Fixture.plain_modules) Fixture.self_file
             dependencies "dist" "rc1" no_output in
  fst r = Ok tt
  /\ firstn 4 (archive_names (snd r))
     = [ "dbsake/__init__.py"; "__main__.py"; "dbsake/sub/__init__.py";
         "__main__.py" ]%string
  /\ ~ NoDup (archive_names (snd r)).
Proof.
  cbv zeta. split; [reflexivity |]. split; [reflexivity |].
  vm_compute. intros H.
  inversion H as [| ? ? _ H1]; subst.
  inversion H1 as [| ? ? Hnotin _]; subst.
  apply Hnotin. right. left. reflexivity.
Qed.

(** C9: when [os.makedirs] fails because the directory exists, the run
    goes on exactly as after a successful creation; any other failure of
    [os.makedirs] ends the run with that exception and the output as it
    was, the output file not opened. *)
Theorem run_output_dir (os : OS) (py : Interp) (__file__ : string)
    (deps : list (string * list string)) (dist_dir self_tag : string)
    (o : Output) (e : exn) :
  makedirs os dist_dir = Raise e ->
  (e = OSError EEXIST ->
   run os py __file__ deps dist_dir self_tag o
   = run (with_makedirs (fun _ => Ok tt) os) py __file__ deps dist_dir self_tag o)
  /\ (e <> OSError EEXIST ->
      run os py __file__ deps dist_dir self_tag o = (Raise e, o)
      /\ out_name (snd (run os py __file__ deps dist_dir self_tag o)) = out_name o).
Proof.
  intros Hmk. split.
  - intros ->. unfold run, bind, make_dist_dir. rewrite Hmk. reflexivity.
  - intros Hne.
    assert (Hrun : run os py __file__ deps dist_dir self_tag o = (Raise e, o)).
    { unfold run. unfold bind at 1. unfold make_dist_dir. rewrite Hmk.
      destruct e as [errno | | | | |]; try reflexivity.
      destruct (errno =? EEXIST)%Z eqn:E; [| reflexivity].
      apply Z.eqb_eq in E. now subst. }
    now rewrite Hrun.
Qed.

Lemma run_output_dir_witness :
  let py := Fixture.interpreter Fixture.plain_modules in
  let exists_ := Fixture.machine (Raise (OSError EEXIST)) Fixture.tree Fixture.files in
  let denied := Fixture.machine (Raise (OSError 13)) Fixture.tree Fixture.files in
  (makedirs exists_ "dist" = Raise (OSError EEXIST)
   /\ run exists_ py Fixture.self_file dependencies "dist" "rc1" no_output
      = run (with_makedirs (fun _ => Ok tt) exists_) py Fixture.self_file
          dependencies "dist" "rc1" no_output)
  /\ (makedirs denied "dist" = Raise (OSError 13)
      /\ run denied py Fixture.self_file dependencies "dist" "rc1" no_output
         = (Raise (OSError 13), no_output)).
Proof.
  cbv zeta. split; (split; [reflexivity |]).
  - apply (run_output_dir
             (Fixture.machine (Raise (OSError EEXIST)) Fixture.tree Fixture.files)
             (Fixture.interpreter Fixture.plain_modules) Fixture.self_file
             dependencies "dist" "rc1" no_output (OSError EEXIST));
      reflexivity.
  - apply (run_output_dir
             (Fixture.machine (Raise (OSError 13)) Fixture.tree Fixture.files)
             (Fixture.interpreter Fixture.plain_modules) Fixture.self_file
             dependencies "dist" "rc1" no_output (OSError 13));
      [reflexivity | discriminate].
Defined.

End RunClaims.

(** ** The resolver *)

Section ResolverClaims.

Import DBSakeBundler.

(** C4: for a top-level package that imports under its own name, and
    whose walked modules outside the excluded prefixes all have source,
    [fetch_source] yields the entry [<package>/__init__.py] with the
    source of the package, then one entry for each walked module whose
    name starts with no excluded prefix, in walk order, under the name
    with every dot replaced by a slash, followed by [/__init__.py] for a
    package and by [.py] otherwise; then it stops. *)
Theorem fetch_source_entries (py : Interp) (package : string)
    (excludes : list string) (pkg : Package) (loader : Loader) :
  import_ py package = Ok pkg ->
  __name__ pkg = package ->
  get_loader py pkg = Some loader ->
  (forall m,
      In m (walk_packages py (__path__ pkg) (package ++ ".")%string) ->
      existsb (fun prefix => String.prefix prefix (walked_name m)) excludes
      = false ->
      exists source, walked_source m = Some source) ->
  fetch_source py package excludes
  = Generated
      (((package ++ "/__init__.py")%string, get_source loader package)
       :: map (fun m =>
                 ((PyStr.replace_char "."%char "/"%char (walked_name m)
                   ++ (if snd m then "/__init__.py" else ".py"))%string,
                  walked_source m))
              (filter (fun m =>
                         negb (existsb (fun prefix =>
                                          String.prefix prefix (walked_name m))
                                       excludes))
                      (walk_packages py (__path__ pkg) (package ++ ".")%string)))
      None.
Proof.
  intros Himport Hname Hloader Hsrc.
  unfold fetch_source. rewrite Himport, Hloader, Hname.
  rewrite fetch_walked_all.
  - unfold gen_yield. cbn [yielded finish]. do 2 f_equal.
    induction (walk_packages py (__path__ pkg) (package ++ ".")%string)
      as [| m w IH]; [reflexivity |].
    cbn [filter]. unfold not_excluded at 1. rewrite is_excluded_existsb.
    destruct (existsb _ excludes); cbn [negb map].
    + apply IH. intros m' Hm'. apply Hsrc. now right.
    + rewrite IH by (intros m' Hm'; apply Hsrc; now right).
      f_equal. unfold walked_entry, module_path. now destruct (snd m).
  - intros m Hm Hex. apply Hsrc; [assumption |].
    unfold not_excluded in Hex. rewrite is_excluded_existsb in Hex.
    now apply negb_true_iff in Hex.
Qed.

Lemma fetch_source_entries_witness :
  let py := Fixture.interpreter Fixture.plain_modules in
  walk_packages py ["a"%string] "a."
  = [ (Fixture.text_importer, "a.b"%string, false);
      (Fixture.text_importer, "a.c"%string, false) ]
  /\ map fst (yielded (fetch_source py "a" []))
     = [ "a/__init__.py"; "a/b.py"; "a/c.py" ]%string
  /\ finish (fetch_source py "a" []) = None.
Proof.
  cbv zeta. split; [reflexivity |].
  rewrite (fetch_source_entries (Fixture.interpreter Fixture.plain_modules)
             "a" [] {| __name__ := "a"; __path__ := ["a"%string] |}
             Fixture.text_loader eq_refl eq_refl eq_refl).
  - split; reflexivity.
  - intros m Hm _. cbn in Hm.
    destruct Hm as [<- | [<- | []]]; eexists; reflexivity.
Defined.

(** C6: when a walked module outside the excluded prefixes has a loader
    that returns no source, the [assert] of [fetch_source] fails: the
    generator ends with [AssertionError] after the entries of the modules
    walked before, with no entry for that module and none after it; the
    loop over this dependency raises [AssertionError], and a run with it
    among its dependencies never completes. *)
Theorem fetch_source_missing_source (os : OS) (py : Interp) (__file__ : string)
    (deps : list (string * list string)) (dist_dir self_tag : string)
    (package : string) (excludes : list string) (pkg : Package)
    (loader : Loader) (init_source : string)
    (before after : list (Importer * string * bool))
    (importer : Importer) (name : string) (is_pkg : bool)
    (module_loader : Loader) :
  import_ py package = Ok pkg ->
  get_loader py pkg = Some loader ->
  get_source loader (__name__ pkg) = Some init_source ->
  walk_packages py (__path__ pkg) (__name__ pkg ++ ".")%string
  = before ++ (importer, name, is_pkg) :: after ->
  (forall m, In m before -> not_excluded excludes m = true ->
             exists source, walked_source m = Some source) ->
  is_excluded name excludes = false ->
  find_module importer name = Some module_loader ->
  get_source module_loader name = None ->
  fetch_source py package excludes
  = Generated
      (((__name__ pkg ++ "/__init__.py")%string, Some init_source)
       :: map walked_entry (filter (not_excluded excludes) before))
      (Some AssertionError)
  /\ (forall o,
         fst (for_generated (fetch_source py package excludes)
                (fun '(name, source) => ZipFile.writestr_source name source) o)
         = Raise AssertionError)
  /\ (In (package, excludes) deps ->
      forall o, exists e,
          fst (run os py __file__ deps dist_dir self_tag o) = Raise e).
Proof.
  intros Himport Hloader Hinit Hwalk Hbefore Hex Hfind Hsrc.
  assert (Hgen : fetch_source py package excludes
                 = Generated
                     (((__name__ pkg ++ "/__init__.py")%string, Some init_source)
                      :: map walked_entry (filter (not_excluded excludes) before))
                     (Some AssertionError)).
  { unfold fetch_source. rewrite Himport, Hloader, Hinit, Hwalk.
    now rewrite (fetch_walked_missing excludes before after importer name
                   is_pkg module_loader Hbefore Hex Hfind Hsrc). }
  split; [exact Hgen |]. split.
  - intros o. rewrite Hgen. unfold for_generated, bind. cbn [yielded finish].
    assert (Hall : forall l o1,
               (forall m, In m l -> exists source, walked_source m = Some source) ->
               fst (for_each (map walked_entry l)
                      (fun '(name, source) => ZipFile.writestr_source name source)
                      o1) = Ok tt).
    { induction l as [| m l IH]; intros o1 Hl; [reflexivity |].
      cbn [map for_each]. unfold bind.
      destruct (Hl m (or_introl eq_refl)) as [source Hs].
      unfold walked_entry at 1. rewrite Hs. cbn.
      apply IH. intros m' Hm'. apply Hl. now right. }
    cbn [for_each]. unfold bind at 1. cbn [ZipFile.writestr_source].
    unfold ZipFile.writestr at 1, modify at 1.
    match goal with
    | |- context [for_each (map walked_entry ?l) ?body ?o1] =>
        pose proof (Hall l o1) as Hok;
        destruct (for_each (map walked_entry l) body o1) as [[[] | e] o2]
    end.
    + reflexivity.
    + cbn [fst] in Hok. discriminate Hok.
      intros m Hm. apply filter_In in Hm as [Hm Hne]. now apply Hbefore.
  - intros Hin. apply run_raises.
    unfold write_dependencies.
    apply (for_each_raises deps _ (package, excludes) Hin).
    intros o. apply (for_generated_raises _ _ AssertionError).
    now rewrite Hgen.
Qed.

Lemma fetch_source_missing_source_witness :
  let py := Fixture.interpreter Fixture.compiled_modules in
  let os := Fixture.machine (Ok tt) Fixture.tree Fixture.files in
  let excludes := ["markupsafe._speedups"; "markupsafe.tests"]%string in
  walked_source (Fixture.binary_importer, "markupsafe._native"%string, false) = None
  /\ fetch_source py "markupsafe" excludes
     = Generated [ ("markupsafe/__init__.py"%string, Some "# markupsafe"%string);
                   ("markupsafe/core.py"%string, Some "# markupsafe.core"%string) ]
                 (Some AssertionError)
  /\ exists e,
       fst (run os py Fixture.self_file dependencies "dist" "rc1" no_output)
       = Raise e.
Proof.
  cbv zeta. split; [reflexivity |].
  destruct (fetch_source_missing_source
              (Fixture.machine (Ok tt) Fixture.tree Fixture.files)
              (Fixture.interpreter Fixture.compiled_modules) Fixture.self_file
              dependencies "dist" "rc1"
              "markupsafe" ["markupsafe._speedups"; "markupsafe.tests"]%string
              {| __name__ := "markupsafe"; __path__ := ["markupsafe"%string] |}
              Fixture.text_loader "# markupsafe"
              [(Fixture.text_importer, "markupsafe.core"%string, false)]
              [(Fixture.text_importer, "markupsafe.utils"%string, false)]
              Fixture.binary_importer "markupsafe._native" false
              Fixture.binary_loader)
    as (Hgen & _ & Hrun); try reflexivity.
  - intros m [<- | []] _. eexists. reflexivity.
  - split; [rewrite Hgen; reflexivity |].
    apply Hrun. cbn. right. right. left. reflexivity.
Defined.

(** C10: [is_excluded] is asked about the walked modules only.  Whatever
    the excluded prefixes, the first entry [fetch_source] yields is
    [<package>/__init__.py]; with the empty string among the prefixes
    every walked module is passed over and that entry is the only one. *)
Theorem fetch_source_init_entry (py : Interp) (package : string)
    (excludes : list string) (pkg : Package) (loader : Loader) :
  import_ py package = Ok pkg ->
  __name__ pkg = package ->
  get_loader py pkg = Some loader ->
  hd_error (yielded (fetch_source py package excludes))
  = Some ((package ++ "/__init__.py")%string, get_source loader package)
  /\ (In ""%string excludes ->
      fetch_source py package excludes
      = Generated [((package ++ "/__init__.py")%string,
                    get_source loader package)] None).
Proof.
  intros Himport Hname Hloader.
  unfold fetch_source. rewrite Himport, Hloader, Hname.
  split; [reflexivity |].
  intros Hin. unfold gen_yield.
  assert (Hnone : forall walked, fetch_walked excludes walked = gen_stop).
  { induction walked as [| [[importer name] is_pkg] walked IH]; [reflexivity |].
    cbn [fetch_walked]. now rewrite (is_excluded_empty_prefix name excludes Hin). }
  now rewrite Hnone.
Qed.

Lemma fetch_source_init_entry_witness :
  let py := Fixture.interpreter Fixture.mixed_modules in
  fetch_source py "click" [""; "click"]%string
  = Generated [("click/__init__.py"%string, Some "# click"%string)] None
  /\ hd_error (yielded (fetch_source py "click" ["click"%string]))
     = Some ("click/__init__.py"%string, Some "# click"%string).
Proof.
  cbv zeta. split.
  - apply (fetch_source_init_entry (Fixture.interpreter Fixture.mixed_modules)
             "click" [""; "click"]%string
             {| __name__ := "click"; __path__ := ["click"%string] |}
             Fixture.text_loader eq_refl eq_refl eq_refl).
    now left.
  - apply (fetch_source_init_entry (Fixture.interpreter Fixture.mixed_modules)
             "click" ["click"%string]
             {| __name__ := "click"; __path__ := ["click"%string] |}
             Fixture.text_loader eq_refl eq_refl eq_refl).
Defined.

End ResolverClaims.

(** * Further properties *)

(** ** Strings *)

Section StringFacts.

Lemma prefix_iff (p s : string) :
  String.prefix p s = true <-> exists rest, s = (p ++ rest)%string.
Proof.
  revert s. induction p as [| c p IH]; intros s.
  - split; [now exists s | now destruct s].
  - destruct s as [| d s]; [split; [discriminate | now intros [rest H]] |].
    change (String.prefix (String c p) (String d s))
      with (if Ascii.ascii_dec c d then String.prefix p s else false).
    destruct (Ascii.ascii_dec c d) as [-> | Hne].
    + rewrite IH. split; intros [rest H]; exists rest; cbn in *; congruence.
    + split; [discriminate |]. intros [rest H]. cbn in H. congruence.
Qed.

Lemma string_app_assoc (s t u : string) :
  ((s ++ t) ++ u = s ++ (t ++ u))%string.
Proof. induction s as [| c s IH]; cbn; [reflexivity | now rewrite IH]. Qed.

Lemma rev_string_acc (acc s : string) :
  PyStr.rev_string acc s = (PyStr.rev_string "" s ++ acc)%string.
Proof.
  revert acc. induction s as [| c s IH]; intros acc; cbn; [reflexivity |].
  rewrite (IH (String c acc)), (IH (String c "")), string_app_assoc.
  reflexivity.
Qed.

Lemma rev_string_app (s t : string) :
  PyStr.rev_string "" (s ++ t)
  = (PyStr.rev_string "" t ++ PyStr.rev_string "" s)%string.
Proof.
  induction s as [| c s IH]; cbn.
  - induction (PyStr.rev_string "" t) as [| d r IHr]; cbn; congruence.
  - rewrite (rev_string_acc (String c "") (s ++ t)), IH,
      (rev_string_acc (String c "") s), string_app_assoc.
    reflexivity.
Qed.

Lemma endswith_app (p suffix : string) :
  PyStr.endswith (p ++ suffix) suffix = true.
Proof.
  unfold PyStr.endswith. rewrite rev_string_app. apply prefix_iff.
  now exists (PyStr.rev_string "" p).
Qed.

Lemma rev_string_involutive (s : string) :
  PyStr.rev_string "" (PyStr.rev_string "" s) = s.
Proof.
  induction s as [| c s IH]; cbn; [reflexivity |].
  rewrite (rev_string_acc (String c "") s), rev_string_app, IH. reflexivity.
Qed.

Lemma endswith_iff (s suffix : string) :
  PyStr.endswith s suffix = true <-> exists p, s = (p ++ suffix)%string.
Proof.
  split; [| intros [p ->]; apply endswith_app].
  unfold PyStr.endswith. intros [rest H]%prefix_iff.
  exists (PyStr.rev_string "" rest).
  rewrite <- (rev_string_involutive s), H, rev_string_app,
    rev_string_involutive.
  reflexivity.
Qed.

End StringFacts.

(** ** The resolver *)

Section ResolverProperties.

(** X1: a name is excluded exactly when it is some excluded prefix
    followed by anything, the empty rest included. *)
Theorem is_excluded_iff (name : string) (excludes : list string) :
  is_excluded name excludes = true
  <-> exists prefix rest,
        In prefix excludes /\ name = (prefix ++ rest)%string.
Proof.
  rewrite is_excluded_existsb, existsb_exists. split.
  - intros (prefix & Hin & [rest H]%prefix_iff). now exists prefix, rest.
  - intros (prefix & rest & Hin & H). exists prefix. split; [assumption |].
    apply prefix_iff. now exists rest.
Qed.

(** X2: what extends an excluded name is excluded too, so the modules
    below an excluded package are passed over with it. *)
Theorem is_excluded_extends (name suffix : string) (excludes : list string) :
  is_excluded name excludes = true ->
  is_excluded (name ++ suffix) excludes = true.
Proof.
  intros (prefix & rest & Hin & ->)%is_excluded_iff.
  rewrite is_excluded_existsb. apply existsb_exists.
  exists prefix. split; [assumption |].
  apply prefix_iff. exists (rest ++ suffix)%string. apply string_app_assoc.
Qed.

Lemma is_excluded_extends_witness :
  is_excluded "jinja2.testsuite" ["jinja2.testsuite"%string] = true
  /\ is_excluded ("jinja2.testsuite" ++ ".filters") ["jinja2.testsuite"%string]
     = true.
Proof.
  split; [reflexivity |].
  apply (is_excluded_extends "jinja2.testsuite" ".filters"
           ["jinja2.testsuite"%string]).
  reflexivity.
Defined.

Lemma fetch_walked_prefix (excludes : list string)
    (walked : list (Importer * string * bool)) :
  exists k t,
    filter (not_excluded excludes) walked = k ++ t
    /\ yielded (fetch_walked excludes walked) = map walked_entry k
    /\ Forall (fun m => exists source, walked_source m = Some source) k
    /\ (finish (fetch_walked excludes walked) = None -> t = []).
Proof.
  induction walked as [| [[importer name] is_pkg] walked
                          (k & t & Hf & Hy & Hs & Hfin)].
  - exists [], []. repeat split; constructor.
  - cbn [filter fetch_walked]. unfold not_excluded at 1, walked_name at 1.
    cbn [fst snd].
    destruct (is_excluded name excludes); cbn [negb].
    { exists k, t. repeat split; assumption. }
    destruct (find_module importer name) as [loader |] eqn:Efind.
    2: { exists [], ((importer, name, is_pkg) :: filter (not_excluded excludes) walked).
         repeat split; [constructor | discriminate]. }
    destruct (get_source loader name) as [source |] eqn:Esrc.
    2: { exists [], ((importer, name, is_pkg) :: filter (not_excluded excludes) walked).
         repeat split; [constructor | discriminate]. }
    exists ((importer, name, is_pkg) :: k), t.
    unfold gen_yield. cbn [yielded finish map app].
    rewrite Hf, Hy. repeat split; try assumption.
    + unfold walked_entry at 2, walked_name, walked_source. cbn [fst snd].
      now rewrite Efind, Esrc.
    + constructor; [| assumption]. exists source.
      unfold walked_source. now rewrite Efind.
Qed.

(** X3: whatever way the generator ends, what it yields after the entry
    of the package is the entries of the first walked modules that are not
    excluded, in walk order and without a gap; when the generator ends
    without exception, those of all of them.  No excluded module is ever
    yielded. *)
Theorem fetch_source_yields_prefix (py : Interp) (package : string)
    (excludes : list string) (pkg : Package) (loader : Loader) :
  import_ py package = Ok pkg ->
  get_loader py pkg = Some loader ->
  exists k t,
    filter (not_excluded excludes)
      (walk_packages py (__path__ pkg) (__name__ pkg ++ ".")%string)
    = k ++ t
    /\ yielded (fetch_source py package excludes)
       = ((__name__ pkg ++ "/__init__.py")%string,
          get_source loader (__name__ pkg))
         :: map walked_entry k
    /\ (finish (fetch_source py package excludes) = None -> t = []).
Proof.
  intros Himport Hloader. unfold fetch_source. rewrite Himport, Hloader.
  destruct (fetch_walked_prefix excludes
              (walk_packages py (__path__ pkg) (__name__ pkg ++ ".")%string))
    as (k & t & Hf & Hy & _ & Hfin).
  exists k, t. unfold gen_yield. cbn [yielded finish]. rewrite Hy.
  repeat split; assumption.
Qed.

Lemma fetch_source_yields_prefix_witness :
  let py := Fixture.interpreter Fixture.compiled_modules in
  exists k t,
    filter (not_excluded ["pkg.utils"%string])
           (walk_packages py ["pkg"%string] "pkg.")
    = k ++ t
    /\ yielded (fetch_source py "pkg" ["pkg.utils"%string])
       = ("pkg/__init__.py"%string, Some "# pkg"%string) :: map walked_entry k
    /\ (finish (fetch_source py "pkg" ["pkg.utils"%string]) = None -> t = []).
Proof.
  cbv zeta.
  apply (fetch_source_yields_prefix (Fixture.interpreter Fixture.compiled_modules)
           "pkg" ["pkg.utils"%string]
           {| __name__ := "pkg"; __path__ := ["pkg"%string] |}
           Fixture.text_loader);
    reflexivity.
Defined.

(** X4: the [assert] holds for what is yielded: every entry after the
    first carries source text, never [None]. *)
Theorem fetch_source_sources_present (py : Interp) (package : string)
    (excludes : list string) (entry : string * option string) :
  In entry (tl (yielded (fetch_source py package excludes))) ->
  exists source, snd entry = Some source.
Proof.
  unfold fetch_source.
  destruct (import_ py package) as [pkg | e]; [| contradiction].
  destruct (get_loader py pkg) as [loader |]; [| contradiction].
  unfold gen_yield. cbn [yielded tl].
  destruct (fetch_walked_prefix excludes
              (walk_packages py (__path__ pkg) (__name__ pkg ++ ".")%string))
    as (k & t & _ & Hy & Hs & _).
  rewrite Hy. intros (m & <- & Hm)%in_map_iff.
  rewrite Forall_forall in Hs. exact (Hs m Hm).
Qed.

Lemma fetch_source_sources_present_witness :
  let py := Fixture.interpreter Fixture.compiled_modules in
  In ("pkg/core.py"%string, Some "# pkg.core"%string)
     (tl (yielded (fetch_source py "pkg" [])))
  /\ exists source,
       snd ("pkg/core.py"%string, Some "# pkg.core"%string) = Some source.
Proof.
  cbv zeta. split; [now left |].
  apply (fetch_source_sources_present
           (Fixture.interpreter Fixture.compiled_modules) "pkg" []).
  now left.
Defined.

(** X5: a package that cannot be imported yields nothing; the loop over
    it raises the exception of the import with the archive as it was. *)
Theorem fetch_source_import_error (py : Interp) (package : string)
    (excludes : list string) (e : exn) (o : Output) :
  import_ py package = Raise e ->
  fetch_source py package excludes = Generated [] (Some e)
  /\ for_generated (fetch_source py package excludes)
       (fun '(name, source) => ZipFile.writestr_source name source) o
     = (Raise e, o).
Proof.
  intros Himport. unfold fetch_source. rewrite Himport.
  split; reflexivity.
Qed.

(** X6: the package's own source is not asserted.  When its loader has
    none, the first entry is yielded without source and [writestr] raises
    [TypeError]: the loop over the package stops there, with nothing
    written, before any module is walked into the archive. *)
Theorem fetch_source_package_without_source (py : Interp) (package : string)
    (excludes : list string) (pkg : Package) (loader : Loader) (o : Output) :
  import_ py package = Ok pkg ->
  get_loader py pkg = Some loader ->
  get_source loader (__name__ pkg) = None ->
  hd_error (yielded (fetch_source py package excludes))
  = Some ((__name__ pkg ++ "/__init__.py")%string, None)
  /\ for_generated (fetch_source py package excludes)
       (fun '(name, source) => ZipFile.writestr_source name source) o
     = (Raise TypeError, o).
Proof.
  intros Himport Hloader Hsrc. unfold fetch_source.
  rewrite Himport, Hloader, Hsrc. split; reflexivity.
Qed.

Lemma fetch_source_import_error_witness :
  import_ Scenario.nothing_installed "click" = Raise ImportError
  /\ fetch_source Scenario.nothing_installed "click" ["click.testing"%string]
     = Generated [] (Some ImportError)
  /\ for_generated
       (fetch_source Scenario.nothing_installed "click" ["click.testing"%string])
       (fun '(name, source) => ZipFile.writestr_source name source) no_output
     = (Raise ImportError, no_output).
Proof.
  split; [reflexivity |].
  apply (fetch_source_import_error Scenario.nothing_installed "click"
           ["click.testing"%string] ImportError no_output).
  reflexivity.
Defined.

Lemma fetch_source_package_without_source_witness :
  get_source Fixture.binary_loader "markupsafe" = None
  /\ hd_error (yielded (fetch_source Scenario.compiled_packages "markupsafe" []))
     = Some ("markupsafe/__init__.py"%string, None)
  /\ for_generated (fetch_source Scenario.compiled_packages "markupsafe" [])
       (fun '(name, source) => ZipFile.writestr_source name source) no_output
     = (Raise TypeError, no_output).
Proof.
  split; [reflexivity |].
  apply (fetch_source_package_without_source Scenario.compiled_packages
           "markupsafe" []
           {| __name__ := "markupsafe"; __path__ := ["markupsafe"%string] |}
           Fixture.binary_loader no_output);
    reflexivity.
Defined.

Lemma string_app_inv_head (u s t : string) :
  (u ++ s = u ++ t)%string -> s = t.
Proof. induction u as [| c u IH]; cbn; [auto | intros H; apply IH; congruence]. Qed.

Lemma string_app_inv_tail (s t u : string) :
  (s ++ u = t ++ u)%string -> s = t.
Proof.
  intros H. apply (f_equal (PyStr.rev_string "")) in H.
  rewrite !rev_string_app in H. apply string_app_inv_head in H.
  apply (f_equal (PyStr.rev_string "")) in H.
  now rewrite !rev_string_involutive in H.
Qed.

Lemma replace_char_dots_injective (s t : string) :
  has_slash s = false -> has_slash t = false ->
  PyStr.replace_char "."%char "/"%char s = PyStr.replace_char "."%char "/"%char t ->
  s = t.
Proof.
  unfold has_slash. revert t.
  induction s as [| c s IH]; intros [| d t]; cbn; try discriminate;
    [reflexivity |].
  intros [Hc Hs]%orb_false_iff [Hd Ht]%orb_false_iff H.
  injection H as Hcd Hst. f_equal; [| now apply IH].
  destruct (Ascii.eqb_spec c "."%char) as [-> | Hc'],
           (Ascii.eqb_spec d "."%char) as [-> | Hd']; try reflexivity.
  - subst d. discriminate Hd.
  - subst c. discriminate Hc.
  - assumption.
Qed.

(** X7: two modules of the same kind (both packages, or both plain) whose
    dotted names hold no slash get different archive paths unless they
    have the same name. *)
Theorem module_path_injective (name name' : string) (is_pkg : bool) :
  has_slash name = false ->
  has_slash name' = false ->
  module_path name is_pkg = module_path name' is_pkg ->
  name = name'.
Proof.
  intros Hn Hn' H. unfold module_path in H.
  apply (replace_char_dots_injective name name' Hn Hn').
  destruct is_pkg; now apply string_app_inv_tail in H.
Qed.

Lemma module_path_injective_witness :
  has_slash "jinja2.utils" = false
  /\ module_path "jinja2.utils" true = "jinja2/utils/__init__.py"%string
  /\ (module_path "jinja2.utils" true = module_path "jinja2.utils" true ->
      "jinja2.utils"%string = "jinja2.utils"%string).
Proof.
  split; [reflexivity |]. split; [reflexivity |].
  apply (module_path_injective "jinja2.utils" "jinja2.utils" true);
    reflexivity.
Defined.

End ResolverProperties.

(** ** The version stamp *)

Section StampProperties.

Lemma replace_scan_length_gain (old new a c : bytes) (d : nat) :
  old <> [] ->
  List.length old + d <= List.length new ->
  List.length (a ++ old ++ c) + d
  <= List.length (replace_scan old new 0 (a ++ old ++ c)).
Proof.
  intros Hne Hlen. induction a as [| x a IH]; cbn [app].
  - rewrite replace_scan_hit by assumption. rewrite !length_app.
    pose proof (replace_scan_length_le old new c Hne ltac:(lia)). lia.
  - destruct (startswith (x :: a ++ old ++ c) old) eqn:E.
    + apply startswith_inv in E as [r E]. rewrite E.
      rewrite replace_scan_hit by assumption. rewrite !length_app.
      pose proof (replace_scan_length_le old new r Hne ltac:(lia)). lia.
    + rewrite replace_scan_miss by assumption. cbn [List.length]. lia.
Qed.

Lemma tag_bytes_length (tag : string) :
  List.length (tag_bytes tag) = List.length (PyStr.encode tag) + 2.
Proof. rewrite tag_bytes_eq, !length_app. cbn. lia. Qed.

Lemma stamp_ok_of_version_line (data : bytes) (tag : string) :
  has_version_line data = true -> exists out, stamp data tag = Ok out.
Proof.
  unfold stamp, has_version_line. intros Hv.
  destruct (filter is_version_line (splitlines data)) as [| line rest] eqn:E.
  - apply filter_nil_existsb in E. congruence.
  - eauto.
Qed.

(** X9: with any tag, the stamp of a buffer that has a version line is
    longer than the buffer by at least the tag and one byte; stamping is
    never the identity and stamping again adds a tag again. *)
Theorem stamp_lengthens (data : bytes) (tag : string) :
  has_version_line data = true ->
  exists out,
    stamp data tag = Ok out
    /\ List.length data + List.length (PyStr.encode tag) + 1 <= List.length out.
Proof.
  intros Hv. unfold has_version_line in Hv. unfold stamp.
  destruct (filter is_version_line (splitlines data)) as [| line rest] eqn:E.
  { apply filter_nil_existsb in E. congruence. }
  eexists. split; [reflexivity |].
  destruct (version_info_occurs data line) as (a & c & Hocc).
  { rewrite E. now left. }
  pose proof (tag_bytes_length tag) as Htag.
  unfold replace. destruct (version_info_of line) as [| v0 vi] eqn:Ev.
  - cbn [slice_0_m1 removelast app]. rewrite length_app.
    pose proof (flat_map_cons_length (tag_bytes tag) data). lia.
  - rewrite <- Ev in *. rewrite Hocc at 2.
    assert (Hvne : version_info_of line <> []) by (rewrite Ev; discriminate).
    pose proof (replace_scan_length_gain (version_info_of line)
                  (slice_0_m1 (version_info_of line) ++ tag_bytes tag) a c
                  (List.length (PyStr.encode tag) + 1) Hvne) as Hgain.
    rewrite length_app, slice_0_m1_length, Htag in Hgain.
    rewrite Hocc at 1.
    assert (0 < List.length (version_info_of line)).
    { rewrite Ev. cbn. lia. }
    lia.
Qed.

Lemma stamp_lengthens_witness :
  has_version_line Fixture.init_py = true
  /\ exists out,
       stamp Fixture.init_py "rc1" = Ok out
       /\ List.length Fixture.init_py + List.length (PyStr.encode "rc1") + 1
          <= List.length out.
Proof.
  split; [reflexivity |].
  apply (stamp_lengthens Fixture.init_py "rc1"). reflexivity.
Defined.

(** X10: a version line with nothing but blanks after [__version__ = ]
    has the empty value, and [replace] with an empty [old] puts the tag
    bytes before every byte of the buffer and after the last. *)
Theorem stamp_empty_value (pre ws post : bytes) (tag : string) :
  ends_line pre = true ->
  has_version_line pre = false ->
  forallb isspace ws = true ->
  no_linebreak ws = true ->
  at_line_end post = true ->
  stamp (pre ++ b "__version__ = " ++ ws ++ post) tag
  = Ok (tag_bytes tag
          ++ flat_map (fun c => c :: tag_bytes tag)
                      (pre ++ b "__version__ = " ++ ws ++ post)).
Proof.
  intros Hpre Hnone Hws Hnl Hpost.
  apply filter_nil_existsb in Hnone.
  unfold stamp.
  rewrite splitlines_app; [| assumption | reflexivity].
  rewrite filter_app, Hnone, app_nil_l.
  destruct (splitlines_first (b "__version__ = " ++ ws) post)
    as (eol & more & E & Hsp); [discriminate | | assumption |].
  { unfold no_linebreak in *. rewrite forallb_app. now rewrite Hnl. }
  rewrite <- !app_assoc in E. rewrite E. cbn [filter].
  rewrite is_version_line_marker.
  unfold version_info_of. rewrite version_line_partition. cbn [snd].
  rewrite rstrip_spaces by (rewrite forallb_app; now rewrite Hws).
  reflexivity.
Qed.

Lemma stamp_empty_value_witness :
  forallb isspace [SPACE] = true
  /\ stamp ([] ++ b "__version__ = " ++ [SPACE] ++ [LF]) "x"
     = Ok (b " x'_ x'_ x'v x'e x'r x's x'i x'o x'n x'_ x'_ x'  x'= x'  x'  x'"
             ++ [LF] ++ b " x'").
Proof.
  split; [reflexivity |].
  rewrite (stamp_empty_value [] [SPACE] [LF] "x"); reflexivity.
Defined.

(** X11: [splitlines(True)] loses nothing: the lines put end to end are
    the buffer, and no line is empty. *)
Theorem splitlines_lossless (s : bytes) :
  List.concat (splitlines s) = s
  /\ Forall (fun line => line <> []) (splitlines s).
Proof.
  split; [apply splitlines_concat |].
  remember (List.length s) as n eqn:Hn.
  revert s Hn. induction n as [n IH] using lt_wf_ind. intros s Hn.
  assert (IH' : forall t, List.length t < n ->
                  Forall (fun line => line <> []) (splitlines t)).
  { intros t Ht. now apply (IH (List.length t)). }
  clear IH. subst n.
  destruct s as [| c s]; [constructor |].
  cbn [splitlines].
  destruct (Byte.eqb c LF).
  - constructor; [discriminate | apply IH'; cbn; lia].
  - destruct (Byte.eqb c CR).
    + destruct s as [| d s]; [repeat constructor; discriminate |].
      destruct (Byte.eqb d LF); (constructor; [discriminate |]);
        apply IH'; cbn; lia.
    + pose proof (IH' s ltac:(cbn; lia)) as Hs.
      destruct (splitlines s) as [| l ls];
        [repeat constructor; discriminate |].
      inversion Hs; subst. constructor; [discriminate | assumption].
Qed.

End StampProperties.

(** ** The output file *)

Section OutputProperties.

Import DBSakeBundler.

Variable os : OS.
Variable py : Interp.
Variable __file__ : string.
Variable deps : list (string * list string).

Lemma for_each_file_state {A : Type} (l : list A) (body : A -> M unit) :
  (forall x o, file_state (snd (body x o)) = file_state o) ->
  forall o, file_state (snd (for_each l body o)) = file_state o.
Proof.
  intros Hbody. induction l as [| x l IH]; intros o; [reflexivity |].
  cbn [for_each]. unfold bind. specialize (Hbody x o).
  destruct (body x o) as [[[] | e] o1]; cbn [snd] in *.
  - now rewrite IH.
  - assumption.
Qed.

Lemma add_file_file_state (self_tag dirpath name : string) (o : Output) :
  file_state (snd (add_file os __file__ self_tag dirpath name o)) = file_state o.
Proof.
  unfold add_file.
  destruct (not_wanted dirpath name); [reflexivity |].
  destruct (is_self os __file__ (OsPath.join dirpath name)); [reflexivity |].
  destruct (PyStr.endswith (OsPath.join dirpath name) "dbsake/__init__.py").
  - unfold bind, lift, ZipFile.writestr, modify.
    destruct (read_rb os (OsPath.join dirpath name)) as [data | e];
      [| reflexivity].
    now destruct (stamp data self_tag).
  - unfold ZipFile.write, bind, lift, modify.
    now destruct (read_rb os (OsPath.join dirpath name)).
Qed.

Lemma write_tree_file_state (self_tag : string) (o : Output) :
  file_state (snd (write_tree os __file__ self_tag o)) = file_state o.
Proof.
  unfold write_tree. apply for_each_file_state.
  intros [[dirpath dirnames] filenames] o1.
  apply for_each_file_state. intros name o2. apply add_file_file_state.
Qed.

Lemma write_dependencies_file_state (o : Output) :
  file_state (snd (write_dependencies py deps o)) = file_state o.
Proof.
  unfold write_dependencies. apply for_each_file_state.
  intros [depname excludes] o1. unfold for_generated, bind.
  pose proof (for_each_file_state (yielded (fetch_source py depname excludes))
                (fun '(name, source) => ZipFile.writestr_source name source)) as H.
  specialize (H ltac:(intros [name [source |]] o2; reflexivity) o1).
  destruct (for_each _ _ o1) as [[[] | e] o2]; cbn [snd] in *;
    [| assumption].
  now destruct (finish _).
Qed.

(** Where a run leaves the output file: untouched when the directory or
    the file could not be had; opened, owner-only, headed by the script
    and closed otherwise, with the message when the run completed. *)
Lemma run_final_state (dist_dir self_tag : string) :
  let r := run os py __file__ deps dist_dir self_tag no_output in
  (exists e, r = (Raise e, no_output))
  \/ file_state (snd r)
     = (Some (OsPath.join dist_dir "dbsake.sh"), Some 448%Z,
        PyStr.encode SHELL_SCRIPT, true, true,
        match fst r with
        | Ok _ => [("Generated " ++ OsPath.join dist_dir "dbsake.sh")%string]
        | Raise _ => []
        end).
Proof.
  cbv zeta. rewrite run_eq.
  pose proof (make_dist_dir_output os dist_dir no_output) as Hmk.
  destruct (make_dist_dir os dist_dir no_output) as [[[] | e] o1];
    cbn [snd] in Hmk; subst o1; [| left; now exists e].
  cbv zeta. destruct (open_wb os _) as [[] | e]; [| left; now exists e].
  right. unfold bind.
  match goal with
  | |- context [write_tree os __file__ self_tag ?o] =>
      pose proof (write_tree_file_state self_tag o) as Ht
  end.
  destruct (write_tree os __file__ self_tag _) as [[[] | e] o2];
    cbn [fst snd] in *.
  - pose proof (write_dependencies_file_state o2) as Hd.
    destruct (write_dependencies py deps o2) as [[[] | e] o3];
      cbn [fst snd] in *; rewrite Ht in Hd;
      injection Hd as H1 H2 H3 H4 H5 H6; unfold file_state;
      repeat apply f_equal2;
      first [ assumption
            | reflexivity
            | cbn [stderr add_stderr close_file close_archive];
              rewrite H6; reflexivity ].
  - injection Ht as H1 H2 H3 H4 H5 H6. unfold file_state.
    repeat apply f_equal2; first [assumption | reflexivity].
Qed.

(** X12: once the output file is opened, the run leaves the archive and
    the file closed, whether it completes or an exception escapes. *)
Theorem run_closes_output (dist_dir self_tag : string) :
  out_name (snd (run os py __file__ deps dist_dir self_tag no_output)) <> None ->
  archive_closed (snd (run os py __file__ deps dist_dir self_tag no_output)) = true
  /\ out_closed (snd (run os py __file__ deps dist_dir self_tag no_output)) = true.
Proof.
  intros Hopen.
  destruct (run_final_state dist_dir self_tag) as [[e He] | Hst].
  - rewrite He in Hopen. now contradiction Hopen.
  - unfold file_state in Hst. now inversion Hst.
Qed.

(** X13: an entry is only ever written to a file that is [dbsake.sh] in
    the distribution directory, has the owner's read, write and execute
    bits and nothing else, and begins with the shell script. *)
Theorem run_header_before_entries (dist_dir self_tag : string) :
  archive (snd (run os py __file__ deps dist_dir self_tag no_output)) <> [] ->
  out_name (snd (run os py __file__ deps dist_dir self_tag no_output))
  = Some (OsPath.join dist_dir "dbsake.sh")
  /\ out_mode (snd (run os py __file__ deps dist_dir self_tag no_output))
     = Some 448%Z
  /\ out_header (snd (run os py __file__ deps dist_dir self_tag no_output))
     = PyStr.encode SHELL_SCRIPT.
Proof.
  intros Hentries.
  destruct (run_final_state dist_dir self_tag) as [[e He] | Hst].
  - rewrite He in Hentries. now contradiction Hentries.
  - unfold file_state in Hst. now inversion Hst.
Qed.

(** X14: the line [Generated <path>] is printed exactly when the run
    completes, and nothing else is printed. *)
Theorem run_message_iff_completed (dist_dir self_tag : string) :
  stderr (snd (run os py __file__ deps dist_dir self_tag no_output))
  = match fst (run os py __file__ deps dist_dir self_tag no_output) with
    | Ok _ => [("Generated " ++ OsPath.join dist_dir "dbsake.sh")%string]
    | Raise _ => []
    end.
Proof.
  destruct (run_final_state dist_dir self_tag) as [[e He] | Hst].
  - now rewrite He.
  - unfold file_state in Hst. now inversion Hst.
Qed.

(** X15: the entries are written in one order, those of the tree in walk
    order and then those of the dependencies in table order: however the
    run ends, the paths in the archive are the first so many of that
    list. *)
Theorem run_writes_in_order (dist_dir self_tag : string) :
  archive_names (snd (run os py __file__ deps dist_dir self_tag no_output))
  = firstn
      (List.length
         (archive_names (snd (run os py __file__ deps dist_dir self_tag no_output))))
      (tree_names os __file__ ++ dependency_names py deps).
Proof.
  destruct (run_names os py __file__ deps dist_dir self_tag)
    as (k & t & Hk & Hg & _).
  rewrite Hk, Hg. rewrite firstn_app, Nat.sub_diag, firstn_all. cbn.
  now rewrite app_nil_r.
Qed.

End OutputProperties.

Lemma run_closes_output_witness :
  let os := Fixture.machine (Ok tt) Fixture.tree_init_second
              Fixture.files_no_version in
  let py := Fixture.interpreter Fixture.plain_modules in
  let r := DBSakeBundler.run os py Fixture.self_file DBSakeBundler.dependencies
             "dist" "rc1" no_output in
  fst r = Raise IndexError
  /\ out_name (snd r) <> None
  /\ archive_closed (snd r) = true
  /\ out_closed (snd r) = true.
Proof.
  cbv zeta. split; [reflexivity |]. split; [discriminate |].
  apply (run_closes_output
           (Fixture.machine (Ok tt) Fixture.tree_init_second
              Fixture.files_no_version)
           (Fixture.interpreter Fixture.plain_modules) Fixture.self_file
           DBSakeBundler.dependencies "dist" "rc1").
  discriminate.
Defined.

Lemma run_header_before_entries_witness :
  let os := Fixture.machine (Ok tt) Fixture.tree Fixture.files in
  let py := Fixture.interpreter Fixture.compiled_modules in
  let r := DBSakeBundler.run os py Fixture.self_file DBSakeBundler.dependencies
             "dist" "rc1" no_output in
  fst r = Raise AssertionError
  /\ archive (snd r) <> []
  /\ out_name (snd r) = Some "dist/dbsake.sh"%string
  /\ out_mode (snd r) = Some 448%Z
  /\ out_header (snd r) = PyStr.encode SHELL_SCRIPT.
Proof.
  cbv zeta. split; [reflexivity |]. split; [discriminate |].
  apply (run_header_before_entries
           (Fixture.machine (Ok tt) Fixture.tree Fixture.files)
           (Fixture.interpreter Fixture.compiled_modules) Fixture.self_file
           DBSakeBundler.dependencies "dist" "rc1").
  discriminate.
Defined.

(** ** The entries *)

Section EntryProperties.

Import DBSakeBundler.

Variable os : OS.
Variable py : Interp.
Variable __file__ : string.

Lemma add_file_stamped (self_tag dirpath name : string) (data : bytes)
    (o : Output) :
  included os __file__ (dirpath, name) = true ->
  is_stamped (dirpath, name) = true ->
  read_rb os (OsPath.join dirpath name) = Ok data ->
  add_file os __file__ self_tag dirpath name o
  = match stamp data self_tag with
    | Ok stamped => (Ok tt, add_entry (file_arcname (dirpath, name)) stamped o)
    | Raise e => (Raise e, o)
    end.
Proof.
  rewrite <- not_wanted_included. unfold add_file, is_stamped, file_path.
  cbn [fst snd]. intros H Hinit Hread.
  destruct (not_wanted dirpath name); [discriminate |].
  destruct (is_self os __file__ (OsPath.join dirpath name)); [discriminate |].
  rewrite Hinit. unfold bind, lift. rewrite Hread.
  now destruct (stamp data self_tag).
Qed.

Lemma write_tree_flat (self_tag : string) (o : Output) :
  write_tree os __file__ self_tag o
  = for_each (walked_files os)
      (fun file => add_file os __file__ self_tag (fst file) (snd file)) o.
Proof.
  unfold write_tree, walked_files. revert o.
  induction (walk os "dbsake") as [| [[dirpath dirnames] filenames] w IH];
    intros o; [reflexivity |].
  cbn [for_each flat_map]. rewrite for_each_app. unfold bind.
  assert (Hdir : forall o1,
             for_each (map (pair dirpath) filenames)
               (fun file => add_file os __file__ self_tag (fst file) (snd file)) o1
             = for_each filenames (add_file os __file__ self_tag dirpath) o1).
  { induction filenames as [| name names IHn]; intros o1; [reflexivity |].
    cbn [map for_each fst snd]. unfold bind.
    destruct (add_file os __file__ self_tag dirpath name o1) as [[[] | e] o2];
      [apply IHn | reflexivity]. }
  rewrite Hdir.
  destruct (for_each filenames _ o) as [[[] | e] o1]; [apply IH | reflexivity].
Qed.

Lemma for_each_tree_entries (contents : string -> bytes) (self_tag : string)
    (files : list (string * string)) (o : Output) :
  (forall file, In file (filter (included os __file__) files) ->
                read_rb os (file_path file) = Ok (contents (file_path file))) ->
  (forall file, In file (filter (included os __file__) files) ->
                is_stamped file = true ->
                has_version_line (contents (file_path file)) = true) ->
  exists o',
    for_each files
      (fun file => add_file os __file__ self_tag (fst file) (snd file)) o
    = (Ok tt, o')
    /\ archive o'
       = archive o
         ++ map (tree_entry contents self_tag)
                (filter (included os __file__) files).
Proof.
  revert o. induction files as [| [dirpath name] files IH]; intros o Hread Hver.
  - exists o. split; [reflexivity | now rewrite app_nil_r].
  - cbn [for_each filter fst snd] in *. unfold bind.
    destruct (included os __file__ (dirpath, name)) eqn:Einc.
    + assert (Hr := Hread (dirpath, name) (or_introl eq_refl)).
      unfold file_path in Hr. cbn [fst snd] in Hr.
      assert (Hstep : add_file os __file__ self_tag dirpath name o
                      = (Ok tt, add_entry (fst (tree_entry contents self_tag (dirpath, name)))
                                  (snd (tree_entry contents self_tag (dirpath, name))) o)).
      { unfold tree_entry. cbn [fst snd].
        destruct (is_stamped (dirpath, name)) eqn:Est.
        - rewrite (add_file_stamped self_tag dirpath name _ o Einc Est Hr).
          pose proof (Hver (dirpath, name) (or_introl eq_refl) Est) as Hv.
          apply (stamp_ok_of_version_line _ self_tag) in Hv as [out Hout].
          unfold file_path in *. cbn [fst snd] in *. now rewrite Hout.
        - unfold is_stamped, file_path in Est. cbn [fst snd] in Est.
          unfold file_path. cbn [fst snd].
          apply (add_file_copy os __file__ self_tag dirpath name _ o Einc Est Hr). }
      rewrite Hstep.
      destruct (IH (add_entry (fst (tree_entry contents self_tag (dirpath, name)))
                      (snd (tree_entry contents self_tag (dirpath, name))) o))
        as (o' & E & A).
      { intros file Hin. apply Hread. now right. }
      { intros file Hin. apply Hver. now right. }
      exists o'. split; [assumption |].
      rewrite A, archive_add_entry, <- app_assoc. cbn [map app].
      now destruct (tree_entry contents self_tag (dirpath, name)).
    + rewrite (add_file_skip os __file__ self_tag dirpath name o Einc).
      now apply IH.
Qed.

(** X16: when every included file can be read and every stamped one has
    a version line, the tree loop completes and adds, in walk order, one
    entry for each included file: the bytes of the file as they are, and
    the stamped bytes for a file whose path ends in [dbsake/__init__.py];
    what the archive held before stays in front. *)
Theorem write_tree_entries (contents : string -> bytes) (self_tag : string)
    (o : Output) :
  (forall file, In file (filter (included os __file__) (walked_files os)) ->
                read_rb os (file_path file) = Ok (contents (file_path file))) ->
  (forall file, In file (filter (included os __file__) (walked_files os)) ->
                is_stamped file = true ->
                has_version_line (contents (file_path file)) = true) ->
  exists o',
    write_tree os __file__ self_tag o = (Ok tt, o')
    /\ archive o'
       = archive o
         ++ map (tree_entry contents self_tag)
                (filter (included os __file__) (walked_files os)).
Proof.
  intros Hread Hver. rewrite write_tree_flat.
  now apply for_each_tree_entries.
Qed.

Lemma for_each_source_entries (items : list (string * option string))
    (o o' : Output) :
  for_each items (fun '(name, source) => ZipFile.writestr_source name source) o
  = (Ok tt, o') ->
  archive o' = archive o ++ source_entries items
  /\ Forall (fun item => snd item <> None) items.
Proof.
  revert o. induction items as [| [name [text |]] items IH]; intros o H.
  - inversion H; subst. split; [now rewrite app_nil_r | constructor].
  - cbn [for_each] in H. unfold bind in H.
    cbn [ZipFile.writestr_source] in H.
    unfold ZipFile.writestr, modify in H.
    destruct (IH _ H) as [A F]. split.
    + rewrite A, archive_add_entry, <- app_assoc. reflexivity.
    + constructor; [discriminate | assumption].
  - discriminate H.
Qed.

(** X17: when the dependency loop completes, every generator ran to its
    end, every entry it yielded had source, and the archive gained, in
    order, one entry per yielded item holding the source in UTF-8. *)
Theorem write_dependencies_entries (deps : list (string * list string))
    (o o' : Output) :
  write_dependencies py deps o = (Ok tt, o') ->
  archive o'
  = archive o
    ++ flat_map (fun '(depname, excludes) =>
                   source_entries (yielded (fetch_source py depname excludes)))
                deps
  /\ Forall (fun '(depname, excludes) =>
               finish (fetch_source py depname excludes) = None
               /\ Forall (fun item => snd item <> None)
                         (yielded (fetch_source py depname excludes)))
            deps.
Proof.
  unfold write_dependencies. revert o.
  induction deps as [| [depname excludes] deps IH]; intros o H.
  - inversion H; subst. split; [now rewrite app_nil_r | constructor].
  - cbn [for_each] in H. unfold bind at 1 in H. unfold for_generated, bind in H.
    destruct (for_each (yielded (fetch_source py depname excludes)) _ o)
      as [[[] | e] o1] eqn:E; [| discriminate].
    destruct (finish (fetch_source py depname excludes)) eqn:Efin;
      [discriminate |].
    unfold ret in H.
    apply for_each_source_entries in E as [A F].
    destruct (IH _ H) as [A' F']. split.
    + rewrite A', A, <- app_assoc. reflexivity.
    + constructor; [split; assumption | assumption].
Qed.

End EntryProperties.

Lemma write_tree_entries_witness :
  let os := Fixture.machine (Ok tt) Fixture.tree Fixture.files in
  let contents := fun path => match Fixture.lookup path Fixture.files with
                              | Ok data => data
                              | Raise _ => []
                              end in
  exists o',
    DBSakeBundler.write_tree os Fixture.self_file "rc1" no_output = (Ok tt, o')
    /\ archive o'
       = [ ("dbsake/__init__.py"%string,
            b "# dbsake" ++ [LF] ++ b "__version__ = '1.2.3 rc1'" ++ [LF]);
           ("__main__.py"%string, b "import dbsake");
           ("dbsake/cli.py"%string, b "pass");
           ("dbsake/templates/my.cnf"%string, b "[mysqld]") ].
Proof.
  cbv zeta.
  destruct (write_tree_entries
              (Fixture.machine (Ok tt) Fixture.tree Fixture.files)
              Fixture.self_file
              (fun path => match Fixture.lookup path Fixture.files with
                           | Ok data => data
                           | Raise _ => []
                           end)
              "rc1" no_output) as (o' & E & A).
  - apply Forall_forall. vm_compute. repeat constructor.
  - intros file Hin Hst. vm_compute in Hin.
    repeat (destruct Hin as [<- | Hin];
            [first [reflexivity | vm_compute in Hst; discriminate Hst] |]).
    contradiction.
  - exists o'. split; [exact E | rewrite A; reflexivity].
Defined.

Lemma write_dependencies_entries_witness :
  let py := Fixture.interpreter Fixture.plain_modules in
  let r := DBSakeBundler.write_dependencies py [("a"%string, ["a.c"%string])]
             no_output in
  r = (Ok tt, snd r)
  /\ archive (snd r)
     = [ ("a/__init__.py"%string, b "# a"); ("a/b.py"%string, b "# a.b") ]
  /\ finish (fetch_source py "a" ["a.c"%string]) = None.
Proof.
  cbv zeta.
  assert (H : DBSakeBundler.write_dependencies
                (Fixture.interpreter Fixture.plain_modules)
                [("a"%string, ["a.c"%string])] no_output
              = (Ok tt,
                 snd (DBSakeBundler.write_dependencies
                        (Fixture.interpreter Fixture.plain_modules)
                        [("a"%string, ["a.c"%string])] no_output)))
    by reflexivity.
  split; [exact H |].
  destruct (write_dependencies_entries
              (Fixture.interpreter Fixture.plain_modules)
              [("a"%string, ["a.c"%string])] no_output _ H) as [A F].
  split; [rewrite A; reflexivity |].
  apply Forall_inv in F. exact (proj1 F).
Defined.

(** ** Which files are stamped *)

Section StampedFiles.

Import DBSakeBundler.

Lemma join_init_of_dbsake (p : string) :
  OsPath.join (p ++ "dbsake") "__init__.py"
  = (p ++ "dbsake/__init__.py")%string.
Proof.
  unfold OsPath.join.
  change (PyStr.startswith "__init__.py" "/") with false. cbv iota.
  assert (Hne : ((p ++ "dbsake")%string =? "")%string = false).
  { apply String.eqb_neq. now destruct p. }
  assert (Hsl : PyStr.endswith (p ++ "dbsake") "/" = false).
  { unfold PyStr.endswith. now rewrite rev_string_app. }
  rewrite Hne, Hsl. cbn [orb]. now rewrite string_app_assoc.
Qed.

(** X18: the stamp is not kept to the top package.  The [__init__.py] of
    every walked directory whose path ends in [dbsake] is read and
    stamped, and written under its own path; when it has no version line
    the run stops there with [IndexError]. *)
Theorem add_file_init_below_dbsake (os : OS) (__file__ : string)
    (self_tag dirpath : string) (data : bytes) (o : Output) :
  PyStr.endswith dirpath "dbsake" = true ->
  included os __file__ (dirpath, "__init__.py"%string) = true ->
  read_rb os (OsPath.join dirpath "__init__.py") = Ok data ->
  add_file os __file__ self_tag dirpath "__init__.py" o
  = match stamp data self_tag with
    | Ok stamped =>
        (Ok tt, add_entry (OsPath.join dirpath "__init__.py") stamped o)
    | Raise e => (Raise e, o)
    end.
Proof.
  intros [p ->]%endswith_iff Hinc Hread.
  rewrite (add_file_stamped os __file__ self_tag (p ++ "dbsake") "__init__.py"
             data o Hinc); [reflexivity | | assumption].
  unfold is_stamped, file_path. cbn [fst snd].
  rewrite join_init_of_dbsake. apply endswith_iff.
  exists p. reflexivity.
Qed.

Lemma add_file_init_below_dbsake_witness :
  let os := Fixture.machine (Ok tt) Scenario.tree_nested Scenario.files_nested in
  PyStr.endswith "dbsake/vendor/dbsake" "dbsake" = true
  /\ add_file os Fixture.self_file "rc1" "dbsake/vendor/dbsake" "__init__.py"
       no_output
     = (Raise IndexError, no_output)
  /\ fst (run os (Fixture.interpreter Fixture.plain_modules) Fixture.self_file
            dependencies "dist" "rc1" no_output)
     = Raise IndexError.
Proof.
  cbv zeta. split; [reflexivity |]. split; [| reflexivity].
  rewrite (add_file_init_below_dbsake
             (Fixture.machine (Ok tt) Scenario.tree_nested Scenario.files_nested)
             Fixture.self_file "rc1" "dbsake/vendor/dbsake"
             (b "# vendored" ++ [LF]) no_output);
    reflexivity.
Defined.

End StampedFiles.

(** ** Whole runs *)

Section WholeRuns.

Import DBSakeBundler.

Variable os : OS.
Variable py : Interp.
Variable __file__ : string.

Lemma add_file_unreadable (self_tag dirpath name : string) (e : exn)
    (o : Output) :
  included os __file__ (dirpath, name) = true ->
  read_rb os (OsPath.join dirpath name) = Raise e ->
  add_file os __file__ self_tag dirpath name o = (Raise e, o).
Proof.
  rewrite <- not_wanted_included. unfold add_file. intros H Hread.
  destruct (not_wanted dirpath name); [discriminate |].
  destruct (is_self os __file__ (OsPath.join dirpath name)); [discriminate |].
  unfold ZipFile.write, bind, lift. rewrite Hread.
  now destruct (PyStr.endswith _ _).
Qed.

(** X19: the tree loop stops at the first included file that cannot be
    read, with the exception of the read; the archive then holds the
    entries of the included files walked before it and nothing of the
    files after it. *)
Theorem write_tree_stops_at_unreadable (contents : string -> bytes)
    (self_tag : string) (before after : list (string * string))
    (file : string * string) (e : exn) (o : Output) :
  walked_files os = before ++ file :: after ->
  (forall f, In f (filter (included os __file__) before) ->
             read_rb os (file_path f) = Ok (contents (file_path f))) ->
  (forall f, In f (filter (included os __file__) before) ->
             is_stamped f = true ->
             has_version_line (contents (file_path f)) = true) ->
  included os __file__ file = true ->
  read_rb os (file_path file) = Raise e ->
  exists o',
    write_tree os __file__ self_tag o = (Raise e, o')
    /\ archive o'
       = archive o
         ++ map (tree_entry contents self_tag)
                (filter (included os __file__) before).
Proof.
  intros Hwalk Hread Hver Hinc Hfail.
  rewrite write_tree_flat, Hwalk, for_each_app.
  destruct (for_each_tree_entries os __file__ contents self_tag before o
              Hread Hver) as (o1 & E & A).
  rewrite E. exists o1. split; [| exact A].
  cbn [for_each]. unfold bind. destruct file as [dirpath name].
  cbn [fst snd].
  now rewrite (add_file_unreadable self_tag dirpath name e o1 Hinc Hfail).
Qed.

Lemma for_each_sources_complete (items : list (string * option string))
    (o : Output) :
  Forall (fun item => snd item <> None) items ->
  exists o',
    for_each items (fun '(name, source) => ZipFile.writestr_source name source) o
    = (Ok tt, o')
    /\ archive o' = archive o ++ source_entries items.
Proof.
  revert o. induction items as [| [name [text |]] items IH]; intros o H.
  - exists o. split; [reflexivity | now rewrite app_nil_r].
  - apply Forall_inv_tail in H.
    destruct (IH (add_entry name (PyStr.encode text) o) H) as (o' & E & A).
    exists o'. split; [exact E |].
    rewrite A, archive_add_entry, <- app_assoc. reflexivity.
  - apply Forall_inv in H. now contradiction H.
Qed.

Lemma write_dependencies_complete (deps : list (string * list string))
    (o : Output) :
  Forall (fun '(depname, excludes) =>
            finish (fetch_source py depname excludes) = None
            /\ Forall (fun item => snd item <> None)
                      (yielded (fetch_source py depname excludes)))
         deps ->
  exists o',
    write_dependencies py deps o = (Ok tt, o')
    /\ archive o'
       = archive o
         ++ flat_map (fun '(depname, excludes) =>
                        source_entries
                          (yielded (fetch_source py depname excludes)))
                     deps.
Proof.
  unfold write_dependencies. revert o.
  induction deps as [| [depname excludes] deps IH]; intros o H.
  - exists o. split; [reflexivity | now rewrite app_nil_r].
  - pose proof (Forall_inv H) as [Hfin Hsrc]. apply Forall_inv_tail in H.
    destruct (for_each_sources_complete _ o Hsrc) as (o1 & E1 & A1).
    destruct (IH o1 H) as (o' & E & A).
    exists o'. cbn [for_each flat_map]. unfold bind at 1.
    unfold for_generated, bind. rewrite E1, Hfin. unfold ret.
    split; [exact E |]. rewrite A, A1, <- app_assoc. reflexivity.
Qed.

(** X20: a run completes, with the message printed, when the directory
    can be made or exists, the file can be opened, every included file
    can be read, every stamped file has a version line, and every
    dependency imports and has source for its package and for each module
    that is not excluded.  The archive then holds the entries of the tree
    followed by those of the dependencies and nothing else. *)
Theorem run_completes (deps : list (string * list string))
    (dist_dir self_tag : string) (contents : string -> bytes) :
  makedirs os dist_dir = Ok tt \/ makedirs os dist_dir = Raise (OSError EEXIST) ->
  open_wb os (OsPath.join dist_dir "dbsake.sh") = Ok tt ->
  (forall f, In f (filter (included os __file__) (walked_files os)) ->
             read_rb os (file_path f) = Ok (contents (file_path f))) ->
  (forall f, In f (filter (included os __file__) (walked_files os)) ->
             is_stamped f = true ->
             has_version_line (contents (file_path f)) = true) ->
  Forall (fun '(depname, excludes) =>
            finish (fetch_source py depname excludes) = None
            /\ Forall (fun item => snd item <> None)
                      (yielded (fetch_source py depname excludes)))
         deps ->
  exists o',
    run os py __file__ deps dist_dir self_tag no_output = (Ok tt, o')
    /\ archive o'
       = map (tree_entry contents self_tag)
             (filter (included os __file__) (walked_files os))
         ++ flat_map (fun '(depname, excludes) =>
                        source_entries
                          (yielded (fetch_source py depname excludes)))
                     deps
    /\ stderr o' = [("Generated " ++ OsPath.join dist_dir "dbsake.sh")%string].
Proof.
  intros Hmk Hopen Hread Hver Hdeps.
  rewrite run_eq.
  assert (Hdir : make_dist_dir os dist_dir no_output = (Ok tt, no_output)).
  { unfold make_dist_dir. now destruct Hmk as [-> | ->]. }
  rewrite Hdir. cbv zeta. rewrite Hopen. unfold bind.
  match goal with
  | |- context [write_tree os __file__ self_tag ?o] =>
      destruct (write_tree_entries os __file__ contents self_tag o Hread Hver)
        as (o1 & E1 & A1);
      change (archive o) with (@nil (string * bytes)) in A1;
      pose proof (write_tree_file_state os __file__ self_tag o) as S1
  end.
  rewrite E1 in S1 |- *. cbn [snd] in S1.
  destruct (write_dependencies_complete deps o1 Hdeps) as (o2 & E2 & A2).
  pose proof (write_dependencies_file_state py deps o1) as S2.
  rewrite E2 in S2 |- *. cbn [snd] in S2.
  eexists. split; [reflexivity |]. split.
  - change (archive (add_stderr _ (close_file (close_archive o2))))
      with (archive o2).
    now rewrite A2, A1.
  - rewrite S1 in S2. injection S2 as _ _ _ _ _ Hst.
    cbn [stderr add_stderr close_file close_archive]. now rewrite Hst.
Qed.

End WholeRuns.

Lemma write_tree_stops_at_unreadable_witness :
  let os := Fixture.machine (Ok tt) Scenario.tree_vanished
              Scenario.files_vanished in
  read_rb os "dbsake/gone.py" = Raise (OSError 2)
  /\ exists o',
       DBSakeBundler.write_tree os Fixture.self_file "rc1" no_output
       = (Raise (OSError 2), o')
       /\ archive o' = [("dbsake/cli.py"%string, b "pass")].
Proof.
  cbv zeta. split; [reflexivity |].
  destruct (write_tree_stops_at_unreadable
              (Fixture.machine (Ok tt) Scenario.tree_vanished
                 Scenario.files_vanished)
              Fixture.self_file
              (fun path => match Fixture.lookup path Scenario.files_vanished with
                           | Ok data => data
                           | Raise _ => []
                           end)
              "rc1" [("dbsake", "cli.py")]%string [("dbsake", "util.py")]%string
              ("dbsake", "gone.py")%string (OSError 2) no_output)
    as (o' & E & A); try reflexivity.
  - intros f [<- | []]. reflexivity.
  - intros f [<- | []] Hst. vm_compute in Hst. discriminate Hst.
  - exists o'. split; [exact E | rewrite A; reflexivity].
Defined.

Lemma run_completes_witness :
  let os := Fixture.machine (Raise (OSError EEXIST)) Fixture.tree Fixture.files in
  let py := Fixture.interpreter Fixture.plain_modules in
  exists o',
    DBSakeBundler.run os py Fixture.self_file DBSakeBundler.dependencies
      "dist" "rc1" no_output
    = (Ok tt, o')
    /\ archive_names o'
       = [ "dbsake/__init__.py"; "__main__.py"; "dbsake/cli.py";
           "dbsake/templates/my.cnf";
           "click/__init__.py"; "click/b.py"; "click/c.py";
           "jinja2/__init__.py"; "jinja2/b.py"; "jinja2/c.py";
           "markupsafe/__init__.py"; "markupsafe/b.py"; "markupsafe/c.py" ]%string
    /\ stderr o' = ["Generated dist/dbsake.sh"%string].
Proof.
  cbv zeta.
  destruct (run_completes
              (Fixture.machine (Raise (OSError EEXIST)) Fixture.tree Fixture.files)
              (Fixture.interpreter Fixture.plain_modules) Fixture.self_file
              DBSakeBundler.dependencies "dist" "rc1"
              (fun path => match Fixture.lookup path Fixture.files with
                           | Ok data => data
                           | Raise _ => []
                           end))
    as (o' & E & A & S).
  - right. reflexivity.
  - reflexivity.
  - apply Forall_forall. vm_compute. repeat constructor.
  - intros file Hin Hst. vm_compute in Hin.
    repeat (destruct Hin as [<- | Hin];
            [first [reflexivity | vm_compute in Hst; discriminate Hst] |]).
    contradiction.
  - repeat constructor; discriminate.
  - exists o'. split; [exact E |]. split; [| exact S].
    unfold archive_names. rewrite A. reflexivity.
Defined.

Section OpenFailure.

Import DBSakeBundler.

(** X21: when the output file cannot be opened, after the directory was
    made or found, the run ends with the exception of [open] and has
    produced nothing: no mode, no header, no entry, no message. *)
Theorem run_open_failure (os : OS) (py : Interp) (__file__ : string)
    (deps : list (string * list string)) (dist_dir self_tag : string)
    (e : exn) :
  makedirs os dist_dir = Ok tt \/ makedirs os dist_dir = Raise (OSError EEXIST) ->
  open_wb os (OsPath.join dist_dir "dbsake.sh") = Raise e ->
  run os py __file__ deps dist_dir self_tag no_output = (Raise e, no_output).
Proof.
  intros Hmk Hopen. rewrite run_eq.
  assert (Hdir : make_dist_dir os dist_dir no_output = (Ok tt, no_output)).
  { unfold make_dist_dir. now destruct Hmk as [-> | ->]. }
  rewrite Hdir. cbv zeta. now rewrite Hopen.
Qed.

Lemma run_open_failure_witness :
  let os := Scenario.read_only Fixture.tree Fixture.files in
  open_wb os "dist/dbsake.sh" = Raise (OSError 30)
  /\ run os (Fixture.interpreter Fixture.plain_modules) Fixture.self_file
       dependencies "dist" "rc1" no_output
     = (Raise (OSError 30), no_output).
Proof.
  cbv zeta. split; [reflexivity |].
  apply (run_open_failure (Scenario.read_only Fixture.tree Fixture.files)
           (Fixture.interpreter Fixture.plain_modules) Fixture.self_file
           dependencies "dist" "rc1" (OSError 30));
    [right |]; reflexivity.
Defined.

End OpenFailure.

(** ** The options *)

Section OptionProperties.

Import DBSakeBundler.

(** X22: [finalize_options] always leaves a distribution directory set,
    [dist] unless one was given, which it keeps; it never touches the tag,
    and finalizing again changes nothing. *)
Theorem finalize_options_settles (self : options) :
  dist_dir (finalize_options self)
  = Some (match dist_dir self with Some dir => dir | None => "dist"%string end)
  /\ tag (finalize_options self) = tag self
  /\ finalize_options (finalize_options self) = finalize_options self.
Proof.
  unfold finalize_options. destruct self as [[dir |] self_tag]; cbn.
  - repeat split.
  - repeat split.
Qed.

End OptionProperties.

(** * The archive paths of a run *)

(** ** Paths and their first component *)

Section PathFacts.

Lemma has_slash_app (s t : string) :
  has_slash (s ++ t) = has_slash s || has_slash t.
Proof.
  unfold has_slash. induction s as [| c s IH]; [reflexivity |].
  cbn [existsb list_ascii_of_string append]. now rewrite IH, orb_assoc.
Qed.

Lemma has_dot_app (s t : string) :
  has_dot (s ++ t) = has_dot s || has_dot t.
Proof.
  unfold has_dot. induction s as [| c s IH]; [reflexivity |].
  cbn [existsb list_ascii_of_string append]. now rewrite IH, orb_assoc.
Qed.

Lemma replace_char_app (s t : string) :
  PyStr.replace_char "."%char "/"%char (s ++ t)
  = (PyStr.replace_char "."%char "/"%char s
     ++ PyStr.replace_char "."%char "/"%char t)%string.
Proof.
  induction s as [| c s IH]; [reflexivity |].
  cbn [PyStr.replace_char append]. now rewrite IH.
Qed.

Lemma replace_char_no_dot (s : string) :
  has_dot s = false -> PyStr.replace_char "."%char "/"%char s = s.
Proof.
  unfold has_dot. induction s as [| c s IH]; [reflexivity |].
  cbn [existsb list_ascii_of_string PyStr.replace_char].
  intros [Hc Hs]%orb_false_iff. rewrite (IH Hs).
  rewrite Ascii.eqb_sym in Hc. now rewrite Hc.
Qed.

Lemma top_component_slash (d rest : string) :
  has_slash d = false ->
  top_component (d ++ String "/"%char rest) = d.
Proof.
  unfold has_slash. induction d as [| c d IH]; [reflexivity |].
  cbn [existsb list_ascii_of_string top_component append].
  intros [Hc Hd]%orb_false_iff. rewrite Ascii.eqb_sym in Hc.
  now rewrite Hc, (IH Hd).
Qed.

Lemma top_component_no_slash (s : string) :
  has_slash s = false -> top_component s = s.
Proof.
  unfold has_slash. induction s as [| c s IH]; [reflexivity |].
  cbn [existsb list_ascii_of_string top_component].
  intros [Hc Hs]%orb_false_iff. rewrite Ascii.eqb_sym in Hc.
  now rewrite Hc, (IH Hs).
Qed.

(** The path of a module under the prefix [d.] begins with [d/]. *)
Lemma module_path_top (d name : string) (is_pkg : bool) :
  has_dot d = false ->
  has_slash d = false ->
  String.prefix (d ++ ".") name = true ->
  top_component (module_path name is_pkg) = d.
Proof.
  intros Hdot Hslash [rest ->]%prefix_iff. unfold module_path.
  rewrite !replace_char_app, (replace_char_no_dot d Hdot).
  cbn [PyStr.replace_char Ascii.eqb Bool.eqb]. cbn.
  rewrite !string_app_assoc. cbn [append].
  destruct is_pkg; now apply top_component_slash.
Qed.

Lemma package_path_top (d : string) :
  has_slash d = false ->
  top_component (d ++ "/__init__.py") = d.
Proof. intros H. now apply top_component_slash. Qed.

(** Two modules get the same path only under the same name, as long as
    no name holds a slash or ends in [.__init__]. *)
Lemma path_of_module_injective (x y : string * bool) :
  has_slash (fst x) = false ->
  has_slash (fst y) = false ->
  PyStr.endswith (fst x) ".__init__" = false ->
  PyStr.endswith (fst y) ".__init__" = false ->
  path_of_module x = path_of_module y ->
  fst x = fst y.
Proof.
  destruct x as [n1 k1], y as [n2 k2]. unfold path_of_module, module_path.
  cbn [fst snd]. intros Hs1 Hs2 He1 He2 H.
  assert (Hcross : forall a c,
             has_slash a = false -> has_slash c = false ->
             (PyStr.replace_char "."%char "/"%char a ++ "/__init__.py"
              = PyStr.replace_char "."%char "/"%char c ++ ".py")%string ->
             PyStr.endswith c ".__init__" = true).
  { intros a c Ha Hc E.
    change "/__init__.py"%string with ("/__init__" ++ ".py")%string in E.
    rewrite <- string_app_assoc in E. apply string_app_inv_tail in E.
    change "/__init__"%string
      with (PyStr.replace_char "."%char "/"%char ".__init__") in E.
    rewrite <- replace_char_app in E.
    apply replace_char_dots_injective in E;
      [| rewrite has_slash_app, Ha; reflexivity | assumption].
    rewrite <- E. apply endswith_app. }
  destruct k1, k2.
  - apply string_app_inv_tail in H.
    now apply replace_char_dots_injective.
  - rewrite (Hcross n1 n2 Hs1 Hs2 H) in He2. discriminate.
  - symmetry in H. rewrite (Hcross n2 n1 Hs2 Hs1 H) in He1. discriminate.
  - apply string_app_inv_tail in H.
    now apply replace_char_dots_injective.
Qed.

Lemma NoDup_map_through {A B C : Type} (f : A -> B) (g : A -> C)
    (l : list A) :
  (forall x y, In x l -> In y l -> g x = g y -> f x = f y) ->
  NoDup (map f l) -> NoDup (map g l).
Proof.
  induction l as [| x l IH]; intros Hinj Hnd; [constructor |].
  cbn [map] in *. apply NoDup_cons_iff in Hnd as [Hx Hnd].
  apply NoDup_cons.
  - intros (y & Ey & Hy)%in_map_iff. apply Hx. apply in_map_iff.
    exists y. split; [| assumption].
    apply Hinj; [now right | now left | assumption].
  - apply IH; [| assumption].
    intros a c Ha Hc. apply Hinj; now right.
Qed.

End PathFacts.

(** ** The paths of one dependency *)

Section DependencyPaths.

Variable py : Interp.

(** The modules behind the entries of one dependency: the package, then
    the walked modules that were yielded. *)
Lemma fetch_source_modules (d : string) (excludes : list string) :
  top_level_name d = true ->
  well_walked py d ->
  exists modules : list (string * bool),
    map fst (yielded (fetch_source py d excludes)) = map path_of_module modules
    /\ NoDup (map fst modules)
    /\ Forall (fun x => has_slash (fst x) = false
                        /\ PyStr.endswith (fst x) ".__init__" = false
                        /\ top_component (path_of_module x) = d)
              modules.
Proof.
  unfold top_level_name. intros Htop Hwalk.
  apply andb_true_iff in Htop as [Htop _].
  apply andb_true_iff in Htop as [Hdot Hslash].
  apply negb_true_iff in Hdot, Hslash.
  unfold fetch_source.
  destruct (import_ py d) as [pkg | e] eqn:Himport.
  2: { exists []. repeat split; constructor. }
  destruct (Hwalk pkg Himport) as (Hname & Hnd & Hunder).
  destruct (get_loader py pkg) as [loader |].
  2: { exists []. repeat split; constructor. }
  rewrite Hname.
  destruct (fetch_walked_prefix excludes
              (walk_packages py (__path__ pkg) (d ++ ".")%string))
    as (k & t & Hf & Hy & _ & _).
  unfold gen_yield. cbn [yielded map fst]. rewrite Hy.
  assert (Hk : forall m, In m k ->
                 In m (walk_packages py (__path__ pkg) (d ++ ".")%string)).
  { intros m Hm.
    assert (Hin : In m (filter (not_excluded excludes)
                          (walk_packages py (__path__ pkg) (d ++ ".")%string))).
    { rewrite Hf. apply in_or_app. now left. }
    now apply filter_In in Hin. }
  assert (Hku : forall m, In m k -> walked_under d m = true).
  { intros m Hm. rewrite forallb_forall in Hunder. apply Hunder, Hk, Hm. }
  assert (Hknd : NoDup (map walked_name k)).
  { apply (NoDup_app_remove_r _ (map walked_name t)).
    rewrite <- map_app, <- Hf.
    assert (Hswap : map walked_name
                      (filter (not_excluded excludes)
                         (walk_packages py (__path__ pkg) (d ++ ".")%string))
                    = filter (fun name => negb (is_excluded name excludes))
                        (map walked_name
                           (walk_packages py (__path__ pkg) (d ++ ".")%string))).
    { now rewrite filter_map_swap. }
    rewrite Hswap. now apply NoDup_filter. }
  exists ((d, true) :: map (fun m => (walked_name m, snd m)) k).
  split; [| split].
  - cbn [map]. unfold path_of_module at 1, module_path. cbn [fst snd].
    rewrite (replace_char_no_dot d Hdot). f_equal.
    rewrite !map_map. reflexivity.
  - cbn [map fst]. rewrite map_map. cbn [fst]. apply NoDup_cons; [| exact Hknd].
    intros (m & Em & Hm)%in_map_iff.
    pose proof (Hku m Hm) as Hu. unfold walked_under in Hu.
    apply andb_true_iff in Hu as [Hu _]. apply andb_true_iff in Hu as [Hu _].
    rewrite Em in Hu. apply prefix_iff in Hu as [rest Hrest].
    apply (f_equal has_dot) in Hrest.
    rewrite !has_dot_app, Hdot in Hrest. discriminate.
  - constructor.
    + cbn [fst]. repeat split; [assumption | |].
      * destruct (PyStr.endswith d ".__init__") eqn:E; [| reflexivity].
        apply endswith_iff in E as [p E]. apply (f_equal has_dot) in E.
        rewrite has_dot_app, Hdot, orb_true_r in E. discriminate.
      * unfold path_of_module, module_path. cbn [fst snd].
        rewrite (replace_char_no_dot d Hdot).
        now apply package_path_top.
    + apply Forall_forall. intros x (m & <- & Hm)%in_map_iff. cbn [fst].
      pose proof (Hku m Hm) as Hu. unfold walked_under in Hu.
      apply andb_true_iff in Hu as [Hu Hinit].
      apply andb_true_iff in Hu as [Hpre Hsl].
      apply negb_true_iff in Hinit, Hsl.
      repeat split; [assumption .. |].
      unfold path_of_module. cbn [fst snd]. now apply module_path_top.
Qed.

Lemma fetch_source_names_distinct (d : string) (excludes : list string) :
  top_level_name d = true ->
  well_walked py d ->
  NoDup (map fst (yielded (fetch_source py d excludes)))
  /\ forall n, In n (map fst (yielded (fetch_source py d excludes))) ->
               top_component n = d.
Proof.
  intros Htop Hwalk.
  destruct (fetch_source_modules d excludes Htop Hwalk)
    as (modules & -> & Hnd & Hall).
  rewrite Forall_forall in Hall. split.
  - apply (NoDup_map_through fst path_of_module modules); [| assumption].
    intros x y Hx Hy.
    destruct (Hall x Hx) as (Hsx & Hex & _), (Hall y Hy) as (Hsy & Hey & _).
    now apply path_of_module_injective.
  - intros n (x & <- & Hx)%in_map_iff. now apply Hall.
Qed.

(** Every path of the dependencies begins with the name of one of them,
    and no path comes twice. *)
Lemma dependency_names_distinct (deps : list (string * list string)) :
  NoDup (map fst deps) ->
  forallb (fun dep => top_level_name (fst dep)) deps = true ->
  (forall dep, In dep deps -> well_walked py (fst dep)) ->
  NoDup (dependency_names py deps)
  /\ forall n, In n (dependency_names py deps) ->
               In (top_component n) (map fst deps).
Proof.
  unfold dependency_names.
  induction deps as [| [d excludes] deps IH]; intros Hnd Htop Hwalk.
  - split; [constructor | contradiction].
  - cbn [map fst] in Hnd. apply NoDup_cons_iff in Hnd as [Hd Hnd].
    cbn [forallb fst] in Htop. apply andb_true_iff in Htop as [Htd Htop].
    destruct (IH Hnd Htop (fun dep H => Hwalk dep (or_intror H)))
      as [IHnd IHtop].
    destruct (fetch_source_names_distinct d excludes Htd
                (Hwalk (d, excludes) (or_introl eq_refl)))
      as [Hdnd Hdtop].
    cbn [flat_map map fst]. split.
    + apply NoDup_app; [assumption .. |].
      intros n Hn Hrest. apply Hd.
      rewrite <- (Hdtop n Hn). now apply IHtop.
    + intros n [Hn | Hn]%in_app_or.
      * left. symmetry. now apply Hdtop.
      * right. now apply IHtop.
Qed.

End DependencyPaths.

(** ** The whole archive *)

Section ArchivePaths.

Import DBSakeBundler.

Lemma tree_name_shape (os : OS) (__file__ : string) (n : string) :
  forallb (fun f => String.prefix "dbsake/" (file_path f)) (walked_files os)
  = true ->
  In n (tree_names os __file__) ->
  top_component n = "__main__.py"%string \/ top_component n = "dbsake"%string.
Proof.
  intros Hunder (f & <- & Hf)%in_map_iff.
  apply filter_In in Hf as [Hf _].
  rewrite forallb_forall in Hunder. specialize (Hunder f Hf).
  destruct (is_main f) eqn:Emain.
  - left. now rewrite (file_arcname_main f Emain).
  - right. rewrite (file_arcname_other f Emain).
    apply prefix_iff in Hunder as [rest ->].
    now apply (top_component_slash "dbsake" rest).
Qed.

(** C8, as amended: [run] checks no archive path against another, and
    every included file named [__main__.py] is written under that bare
    name.  With at most one such file the paths written, however the run
    ends, are pairwise distinct, given what the walks guarantee:
    [os.walk] lists each file once, under [dbsake/]; the dependency table
    names distinct top-level packages other than [dbsake]; and
    [walk_packages] lists each module of a package once, under the
    package's prefix and never as [__init__]. *)
Theorem run_names_distinct (os : OS) (py : Interp) (__file__ : string)
    (deps : list (string * list string)) (dist_dir self_tag : string) :
  List.length (filter is_main (filter (included os __file__) (walked_files os)))
  <= 1 ->
  NoDup (map file_path (walked_files os)) ->
  forallb (fun f => String.prefix "dbsake/" (file_path f)) (walked_files os)
  = true ->
  NoDup (map fst deps) ->
  forallb (fun dep => top_level_name (fst dep)) deps = true ->
  (forall dep, In dep deps -> well_walked py (fst dep)) ->
  NoDup (archive_names (snd (run os py __file__ deps dist_dir self_tag no_output))).
Proof.
  intros Hmain Hpaths Hunder Hdeps Htop Hwalk.
  destruct (run_names os py __file__ deps dist_dir self_tag)
    as (k & t & Hk & Hg & _).
  rewrite Hk. apply (NoDup_app_remove_r k t). rewrite <- Hg.
  destruct (dependency_names_distinct py deps Hdeps Htop Hwalk)
    as [Hdnd Hdtop].
  apply NoDup_app; [| assumption |].
  - unfold tree_names. apply file_arcname_NoDup.
    + now apply kept_paths_distinct.
    + intros f Hf Hbare. apply filter_In in Hf as [Hf _].
      rewrite forallb_forall in Hunder. specialize (Hunder f Hf).
      rewrite Hbare in Hunder. discriminate Hunder.
    + assumption.
  - intros n Htree Hdep.
    specialize (Hdtop n Hdep).
    apply in_map_iff in Hdtop as (dep & Edep & Hin).
    rewrite forallb_forall in Htop. specialize (Htop dep Hin).
    rewrite Edep in Htop.
    destruct (tree_name_shape os __file__ n Hunder Htree) as [E | E];
      rewrite E in Htop; discriminate Htop.
Qed.

Lemma run_names_distinct_witness :
  let os := Fixture.machine (Ok tt) Fixture.tree Fixture.files in
  let py := Fixture.interpreter Fixture.mixed_modules in
  List.length (filter is_main (filter (included os Fixture.self_file)
                                      (walked_files os))) <= 1
  /\ forallb (fun dep => top_level_name (fst dep)) dependencies = true
  /\ NoDup (archive_names
             (snd (run os py Fixture.self_file dependencies "dist" "rc1"
                     no_output))).
Proof.
  cbv zeta. split; [vm_compute; lia |]. split; [reflexivity |].
  apply (run_names_distinct
           (Fixture.machine (Ok tt) Fixture.tree Fixture.files)
           (Fixture.interpreter Fixture.mixed_modules) Fixture.self_file
           dependencies "dist" "rc1").
  - vm_compute. lia.
  - match goal with
    | |- NoDup ?l =>
        replace l with (nodup string_dec l) by (vm_compute; reflexivity)
    end.
    apply NoDup_nodup.
  - reflexivity.
  - match goal with
    | |- NoDup ?l =>
        replace l with (nodup string_dec l) by (vm_compute; reflexivity)
    end.
    apply NoDup_nodup.
  - reflexivity.
  - intros dep Hin pkg Himport. cbn in Himport.
    injection Himport as <-. cbn [__name__ __path__].
    split; [reflexivity |].
    repeat destruct Hin as [<- | Hin]; try contradiction;
      (split;
       [ match goal with
         | |- NoDup ?l =>
             replace l with (nodup string_dec l) by (vm_compute; reflexivity)
         end;
         apply NoDup_nodup
       | reflexivity ]).
Defined.

End ArchivePaths.
